(** * pytorch-to-returnn: the recurrent module shim and the verification orchestrator

    A shallow embedding of
    - [pytorch_to_returnn/torch/nn/modules/rnn.py] ([RNNBase], [LSTM]) and
    - [pytorch_to_returnn/converter/converter.py] ([Converter]),
    together with the properties the specification states about them.

    Python integers are [Z]; Python dictionaries whose insertion order is
    observable (layer dictionaries, net dictionaries) are association lists;
    the attribute store of a module is a [gmap]; raised exceptions are values
    of [exn] threaded through the [result] monad. *)

From stdpp Require Import base strings list gmap pretty.
From Stdlib Require Import ZArith QArith Qabs Ascii Lia.

Local Open Scope string_scope.
Local Open Scope Z_scope.

(** ** Exceptions and the error monad *)

Module Py.

(** The Python exceptions the modelled code can raise, with their message. *)
Inductive exn : Type :=
| ValueError (msg : string)
| RuntimeError (msg : string)
| AssertionError
| IndexError
| KeyError
| OverflowError
| TypeError
| ZeroDivisionError.

Inductive result (A : Type) : Type :=
| Ok (a : A)
| Raise (e : exn).
Global Arguments Ok {A} a.
Global Arguments Raise {A} e.

Global Instance result_ret : MRet result := λ A a, Ok a.
Global Instance result_bind : MBind result := λ A B f m,
  match m with
  | Ok a => f a
  | Raise e => Raise e
  end.

Definition raises {A} (m : result A) : Prop := ∃ e, m = Raise e.
Definition returns {A} (m : result A) : Prop := ∃ a, m = Ok a.

(** [assert c] *)
Definition assert (c : bool) : result unit :=
  if c then Ok tt else Raise AssertionError.

(** ** Numbers passed where a float is expected

    [dropout] is annotated [float]; Python also accepts an [int] or a [bool]
    there. A finite float is represented by the rational it denotes; the
    comparisons with the integer constants 0 and 1 are exact in Python, so they
    are the comparisons of these rationals. *)
Inductive pyfloat : Type :=
| FNan
| FInf (negative : bool)
| FFin (q : Q).

Inductive number : Type :=
| NBool (b : bool)
| NInt (z : Z)
| NFloat (f : pyfloat).

(** [isinstance(x, bool)] *)
Definition is_bool (x : number) : bool :=
  match x with NBool _ => true | _ => false end.

(** [isinstance(x, numbers.Number)]: [bool], [int] and [float] all are. *)
Definition is_Number (x : number) : bool := true.

(** [0 <= x] *)
Definition zero_le (x : number) : bool :=
  match x with
  | NBool _ => true
  | NInt z => 0 <=? z
  | NFloat FNan => false
  | NFloat (FInf negative) => negb negative
  | NFloat (FFin q) => Qle_bool 0 q
  end.

(** [x <= 1] *)
Definition le_one (x : number) : bool :=
  match x with
  | NBool _ => true
  | NInt z => z <=? 1
  | NFloat FNan => false
  | NFloat (FInf negative) => negative
  | NFloat (FFin q) => Qle_bool q 1
  end.

(** [x > 0] *)
Definition gt_zero (x : number) : bool :=
  match x with
  | NBool b => b
  | NInt z => 0 <? z
  | NFloat FNan => false
  | NFloat (FInf negative) => negb negative
  | NFloat (FFin q) => negb (Qle_bool q 0)
  end.

(** An [int] converts to a float unless it rounds to 2^1024 or beyond. *)
Definition int_fits_float (z : Z) : bool := Z.abs z <? 2 ^ 1024 - 2 ^ 970.

(** [float(x)], as far as raising goes. *)
Definition float (x : number) : result unit :=
  match x with
  | NInt z => if int_fits_float z then Ok tt else Raise OverflowError
  | _ => Ok tt
  end.

(** [1.0 / math.sqrt(n)] for an [int] [n], as far as raising goes. *)
Definition inv_sqrt (n : Z) : result unit :=
  if negb (int_fits_float n) then Raise OverflowError
  else if n <? 0 then Raise (ValueError "math domain error")
  else if n =? 0 then Raise ZeroDivisionError
  else Ok tt.

(** [range(n)] *)
Definition range (n : Z) : list nat := seq 0 (Z.to_nat n).

(** [str(i)] of a non-negative index, as [str.format] and f-strings print it. *)
Definition str (i : nat) : string := pretty i.

(** [str(z)] of an [int]. *)
Definition strZ (z : Z) : string := pretty z.

(** [str] of a tuple and of a list of [int]s. *)
Fixpoint join_ints (l : list Z) : string :=
  match l with
  | [] => ""
  | [z] => strZ z
  | z :: l' => strZ z +:+ ", " +:+ join_ints l'
  end.

Definition str_tuple (l : list Z) : string :=
  match l with
  | [z] => "(" +:+ strZ z +:+ ",)"
  | _ => "(" +:+ join_ints l +:+ ")"
  end.

Definition str_list (l : list Z) : string := "[" +:+ join_ints l +:+ "]".

End Py.

Import Py.

(** ** Tensors and parameters *)

(** Modelled from the spec: the [Tensor] class of this repository
    (pytorch_to_returnn/torch/tensor.py) is not among the sources. A traced
    tensor is represented by what the recurrent module reads from it: its shape
    ([size()], [dim()]) and the name of the graph node bound to it, which
    [Module._get_input_layer_name] returns. *)
Record Tensor : Type := {
  Tensor_size : list Z;
  Tensor_layer_name : string
}.

Definition _get_input_layer_name (t : Tensor) : string := Tensor_layer_name t.

(** [t.dim()] *)
Definition Tensor_dim (t : Tensor) : Z := Z.of_nat (length (Tensor_size t)).

(** [t.size(i)] for [i >= 0], and [t.size(-1)] *)
Definition Tensor_size_at (t : Tensor) (i : nat) : result Z :=
  match Tensor_size t !! i with
  | Some d => Ok d
  | None => Raise IndexError
  end.

Definition Tensor_size_last (t : Tensor) : result Z :=
  match last (Tensor_size t) with
  | Some d => Ok d
  | None => Raise IndexError
  end.

(** Modelled from the spec: [Parameter(Tensor(d1, ..., dn))] is a
    ParameterRecord, of which the shape [(d1, ..., dn)] is kept; the numeric
    values [reset_parameters] draws are not modelled. *)
Record TorchParameter : Type := { param_shape : list Z }.

Global Instance TorchParameter_eq_dec : EqDecision TorchParameter.
Proof. solve_decision. Defined.

(** ** Layer dictionaries

    A LayerDict or NetDict is a Python [dict] with string keys; insertion
    order is kept, as Python keeps it. *)

#[warnings="-register-all"]
Inductive value : Type :=
| VNone
| VStr (s : string)
| VInt (z : Z)
| VTuple (l : list value)
| VDict (d : list (string * value)).

Abbreviation dict := (list (string * value)).

(** [d[k]], [None] when the key is absent *)
Fixpoint dict_get (k : string) (d : dict) : option value :=
  match d with
  | [] => None
  | (k', v) :: d' => if decide (k' = k) then Some v else dict_get k d'
  end.

(** [d[k] = v]: an existing key keeps its position, a new one goes last *)
Fixpoint dict_set (k : string) (v : value) (d : dict) : dict :=
  match d with
  | [] => [(k, v)]
  | (k', v') :: d' =>
      if decide (k' = k) then (k, v) :: d' else (k', v') :: dict_set k v d'
  end.

Definition dict_keys (d : dict) : list string := d.*1.

(** [{key(i): val(i) for i in l}] *)
Definition dict_comprehension {A} (key : A → string) (val : A → value)
    (l : list A) : dict :=
  foldl (λ d i, dict_set (key i) (val i) d) [] l.

(** [dict] called with the entries of [a] and of [b] as keyword arguments:
    a key given twice is a [TypeError] *)
Definition dict_kwargs (a b : dict) : result dict :=
  if bool_decide (Forall (λ k, k ∉ dict_keys a) (dict_keys b))
  then Ok (a ++ b)%list
  else Raise TypeError.

(** ** rnn.py *)

Module rnn.

(** What [warnings.warn] was called with. *)
Inductive warning : Type :=
| DropoutWarning (dropout : number) (num_layers : Z).

(** Which class the object is an instance of; it selects the methods. *)
Inductive rnn_class : Type := ClsRNNBase | ClsLSTM.

(** The state of an [RNNBase] object: the attributes [__init__] assigns,
    the parameters it registers with [setattr], and [_all_weights]. *)
Record RNNBase : Type := {
  cls : rnn_class;
  mode : string;
  input_size : Z;
  hidden_size : Z;
  num_layers : Z;
  bias : bool;
  batch_first : bool;
  dropout : number;      (* [float(dropout)] denotes the same number *)
  bidirectional : bool;
  parameters : gmap string TorchParameter;
  _all_weights : list (list string)
}.

Definition num_directions (bidirectional : bool) : Z :=
  if bidirectional then 2 else 1.

Definition dropout_msg : string :=
  "dropout should be a number in range [0, 1] " +:+
  "representing the probability of an element being " +:+
  "zeroed".

(** Lines 36-43: [float(dropout)], then the range check. *)
Definition check_dropout (dropout : number) : result unit :=
  _ ← float dropout;
  if negb (is_Number dropout)
     || negb (zero_le dropout && le_one dropout)
     || is_bool dropout
  then Raise (ValueError dropout_msg)
  else Ok tt.

(** Lines 44-48. *)
Definition dropout_warnings (dropout : number) (num_layers : Z) : list warning :=
  if gt_zero dropout && (num_layers =? 1)
  then [DropoutWarning dropout num_layers]
  else [].

(** Lines 50-59. *)
Definition gate_size_of (mode : string) (hidden_size : Z) : result Z :=
  if decide (mode = "LSTM") then Ok (4 * hidden_size)
  else if decide (mode = "GRU") then Ok (3 * hidden_size)
  else if decide (mode = "RNN_TANH") then Ok hidden_size
  else if decide (mode = "RNN_RELU") then Ok hidden_size
  else Raise (ValueError ("Unrecognized RNN mode: " +:+ mode)).

Definition layer_input_size (input_size hidden_size nd : Z) (layer : nat) : Z :=
  if decide (layer = 0%nat) then input_size else hidden_size * nd.

(** [(w_ih, w_hh, b_ih, b_hh)] *)
Definition layer_params (gate_size lis hidden_size : Z) : list TorchParameter :=
  [ {| param_shape := [gate_size; lis] |};
    {| param_shape := [gate_size; hidden_size] |};
    {| param_shape := [gate_size] |};
    {| param_shape := [gate_size] |} ].

Definition suffix (direction : nat) : string :=
  if decide (direction = 1%nat) then "_reverse" else "".

(** ['<prefix>{}{}'.format(layer, suffix)] *)
Definition format_name (layer : nat) (sfx : string) (prefix : string) : string :=
  prefix +:+ str layer +:+ sfx.

Definition param_names (bias : bool) (layer direction : nat) : list string :=
  format_name layer (suffix direction) <$>
    (["weight_ih_l"; "weight_hh_l"] ++
     (if bias then ["bias_ih_l"; "bias_hh_l"] else []))%list.

(** [for name, param in zip(param_names, layer_params): setattr(self, name, param)] *)
Definition setattr_all (names : list string) (ps : list TorchParameter)
    (attrs : gmap string TorchParameter) : gmap string TorchParameter :=
  foldl (λ m np, <[np.1 := np.2]> m) attrs (zip names ps).

Abbreviation init_state := (gmap string TorchParameter * list (list string))%type.

(** The body of the inner loop, lines 64-82. *)
Definition init_direction (input_size hidden_size gate_size nd : Z) (bias : bool)
    (layer : nat) (st : init_state) (direction : nat) : init_state :=
  let lis := layer_input_size input_size hidden_size nd layer in
  let ps := layer_params gate_size lis hidden_size in
  let names := param_names bias layer direction in
  (setattr_all names ps st.1, (st.2 ++ [names])%list).

Definition init_layer (input_size hidden_size gate_size nd : Z) (bias : bool)
    (st : init_state) (layer : nat) : init_state :=
  foldl (init_direction input_size hidden_size gate_size nd bias layer) st (range nd).

Definition init_weights (input_size hidden_size gate_size nd num_layers : Z)
    (bias : bool) : init_state :=
  foldl (init_layer input_size hidden_size gate_size nd bias) (∅, []) (range num_layers).

(** [reset_parameters], as far as raising goes. *)
Definition reset_parameters (hidden_size : Z) : result unit := inv_sqrt hidden_size.

(** [RNNBase.__init__]: the warnings emitted, and the object or the exception. *)
Definition RNNBase__init__ (c : rnn_class) (mode : string)
    (input_size hidden_size num_layers : Z) (bias batch_first : bool)
    (dropout : number) (bidirectional : bool) : list warning * result RNNBase :=
  let nd := num_directions bidirectional in
  match check_dropout dropout with
  | Raise e => ([], Raise e)
  | Ok _ =>
      (dropout_warnings dropout num_layers,
       gate_size ← gate_size_of mode hidden_size;
       let st := init_weights input_size hidden_size gate_size nd num_layers bias in
       _ ← reset_parameters hidden_size;
       Ok {| cls := c; mode := mode; input_size := input_size;
             hidden_size := hidden_size; num_layers := num_layers;
             bias := bias; batch_first := batch_first; dropout := dropout;
             bidirectional := bidirectional;
             parameters := st.1; _all_weights := st.2 |})
  end.

(** [LSTM.__init__]: the arguments are passed on, after the mode. *)
Definition LSTM__init__ := RNNBase__init__ ClsLSTM "LSTM".

(** Lines 94-103. *)
Definition check_input (self : RNNBase) (input : Tensor)
    (batch_sizes : option (list Z)) : result unit :=
  let expected_input_dim := match batch_sizes with Some _ => 2 | None => 3 end in
  if bool_decide (Tensor_dim input ≠ expected_input_dim) then
    Raise (RuntimeError ("input must have " +:+ strZ expected_input_dim +:+
                         " dimensions, got " +:+ strZ (Tensor_dim input)))
  else
    last_dim ← Tensor_size_last input;
    if bool_decide (input_size self ≠ last_dim) then
      Raise (RuntimeError
        ("input.size(-1) must be equal to input_size. Expected " +:+
         strZ (input_size self) +:+ ", got " +:+ strZ last_dim))
    else Ok tt.

(** Lines 106-110; [batch_sizes] is a one-dimensional integer tensor. *)
Definition mini_batch (self : RNNBase) (input : Tensor)
    (batch_sizes : option (list Z)) : result Z :=
  match batch_sizes with
  | Some bs => match bs !! 0%nat with Some b => Ok b | None => Raise IndexError end
  | None => if batch_first self then Tensor_size_at input 0
            else Tensor_size_at input 1
  end.

(** Lines 105-114. *)
Definition get_expected_hidden_size (self : RNNBase) (input : Tensor)
    (batch_sizes : option (list Z)) : result (list Z) :=
  mini_batch ← mini_batch self input batch_sizes;
  let nd := num_directions (bidirectional self) in
  Ok [num_layers self * nd; mini_batch; hidden_size self].

(** Lines 116-119; [msg] is given by the text before the first [{}]. *)
Definition check_hidden_size (hx : Tensor) (expected_hidden_size : list Z)
    (msg : string) : result unit :=
  if bool_decide (Tensor_size hx ≠ expected_hidden_size) then
    Raise (RuntimeError (msg +:+ str_tuple expected_hidden_size +:+ ", got " +:+
                         str_list (Tensor_size hx)))
  else Ok tt.

Definition RNNBase_check_forward_args (self : RNNBase) (input hidden : Tensor)
    (batch_sizes : option (list Z)) : result unit :=
  _ ← check_input self input batch_sizes;
  expected_hidden_size ← get_expected_hidden_size self input batch_sizes;
  check_hidden_size hidden expected_hidden_size "Expected hidden size ".

Definition LSTM_check_forward_args (self : RNNBase) (input : Tensor)
    (hidden : Tensor * Tensor) (batch_sizes : option (list Z)) : result unit :=
  _ ← check_input self input batch_sizes;
  expected_hidden_size ← get_expected_hidden_size self input batch_sizes;
  _ ← check_hidden_size hidden.1 expected_hidden_size "Expected hidden[0] size ";
  check_hidden_size hidden.2 expected_hidden_size "Expected hidden[1] size ".

(** Lines 132-135. *)
Definition RNNBase_create_returnn_layer_dict (self : RNNBase) (input : Tensor)
    (hx : option Tensor) : result dict :=
  _ ← assert (num_layers self =? 1);
  Ok [("class", VStr "rec"); ("unit", VStr (mode self));
      ("from", VStr (_get_input_layer_name input));
      ("n_out", VInt (hidden_size self))].

(** The nodes of the subnetwork, lines 190-194. *)
Definition lstm_layer_key (i : nat) : string := "layer" +:+ str i.

Definition lstm_layer_node (i : nat) : value :=
  VDict [("class", VStr "rec"); ("unit", VStr "nativelstm2");
         ("from", VStr (if decide (i = 0%nat) then "data"
                        else "layer" +:+ str (i - 1)))].

Definition lstm_output_node (num_layers : Z) : value :=
  VDict [("class", VStr "copy"); ("from", VStr ("layer" +:+ strZ (num_layers - 1)))].

(** Lines 183-201. *)
Definition LSTM_create_returnn_layer_dict (self : RNNBase) (input : Tensor)
    (hx : option Tensor) : result dict :=
  _ ← assert (negb (bidirectional self));
  if 1 <? num_layers self then
    _ ← assert (bool_decide (hx = None));
    sub ← dict_kwargs
             (dict_comprehension lstm_layer_key lstm_layer_node
                (range (num_layers self)))
             [("output", lstm_output_node (num_layers self))];
    Ok [("class", VStr "subnetwork");
        ("from", VStr (_get_input_layer_name input));
        ("subnetwork", VDict sub)]
  else
    let d := [("class", VStr "rec"); ("unit", VStr "nativelstm2");
              ("from", VStr (_get_input_layer_name input))] in
    Ok (match hx with
        | Some h => dict_set "initial_state" (VStr (_get_input_layer_name h)) d
        | None => d
        end).

(** Method resolution: [LSTM] overrides the method of [RNNBase]. *)
Definition create_returnn_layer_dict (self : RNNBase) :=
  match cls self with
  | ClsRNNBase => RNNBase_create_returnn_layer_dict self
  | ClsLSTM => LSTM_create_returnn_layer_dict self
  end.

(** *** [all_weights] and [__setstate__] *)

(** [getattr(self, name)] of a parameter name: the parameter registered under
    it, or [AttributeError]. The names kept in [_all_weights] are parameter
    names; the other attributes of the object are not looked up here. *)
Inductive attr_result (A : Type) : Type :=
| AttrOk (a : A)
| AttributeError (name : string).
Global Arguments AttrOk {A} a.
Global Arguments AttributeError {A} name.

Definition getattr (self : RNNBase) (name : string) : attr_result TorchParameter :=
  match parameters self !! name with
  | Some p => AttrOk p
  | None => AttributeError name
  end.

(** [[getattr(self, weight) for weight in weights]] *)
Fixpoint getattr_each (self : RNNBase) (weights : list string)
    : attr_result (list TorchParameter) :=
  match weights with
  | [] => AttrOk []
  | weight :: rest =>
      match getattr self weight with
      | AttributeError n => AttributeError n
      | AttrOk p =>
          match getattr_each self rest with
          | AttributeError n => AttributeError n
          | AttrOk ps => AttrOk (p :: ps)
          end
      end
  end.

(** The property [all_weights], lines 160-162. *)
Fixpoint all_weights_of (self : RNNBase) (all : list (list string))
    : attr_result (list (list TorchParameter)) :=
  match all with
  | [] => AttrOk []
  | weights :: rest =>
      match getattr_each self weights with
      | AttributeError n => AttributeError n
      | AttrOk ps =>
          match all_weights_of self rest with
          | AttributeError n => AttributeError n
          | AttrOk pss => AttrOk (ps :: pss)
          end
      end
  end.

Definition all_weights (self : RNNBase) : attr_result (list (list TorchParameter)) :=
  all_weights_of self (_all_weights self).

(** An entry of a pickled [_all_weights]: a name, or, in states written by old
    versions, the parameter itself. *)
Inductive weight_entry : Type :=
| WName (name : string)
| WParam (p : TorchParameter).

(** Lines 152-158: the names of one layer and direction. *)
Definition setstate_names (bias : bool) (layer direction : nat) : list string :=
  let weights := format_name layer (suffix direction) <$>
                   ["weight_ih_l"; "weight_hh_l"; "bias_ih_l"; "bias_hh_l"] in
  if bias then weights else take 2 weights.

(** Lines 149-158. *)
Definition setstate_rebuild (num_layers nd : Z) (bias : bool) : list (list string) :=
  foldl (λ acc layer,
           foldl (λ acc direction,
                    (acc ++ [setstate_names bias layer direction])%list)
                 acc (range nd))
        [] (range num_layers).

(** [RNNBase.__setstate__], lines 140-158: the new value of [_all_weights].
    [self] is the object and [restored] its [_all_weights] once the superclass
    has restored the state; [d_all_weights] is [d['all_weights']] when the key
    is there. *)
Definition RNNBase__setstate__ (self : RNNBase)
    (restored : list (list weight_entry))
    (d_all_weights : option (list (list weight_entry)))
    : result (list (list weight_entry)) :=
  let current := match d_all_weights with Some w => w | None => restored end in
  match current !! 0%nat with
  | None => Raise IndexError
  | Some first =>
      match first !! 0%nat with
      | None => Raise IndexError
      | Some (WName _) => Ok current
      | Some (WParam _) =>
          Ok ((λ names : list string, WName <$> names) <$>
                setstate_rebuild (num_layers self)
                  (num_directions (bidirectional self)) (bias self))
      end
  end.

End rnn.

(** ** numpy, as the orchestrator uses it *)

(** The three numpy operations [converter.py] calls. A tolerance that the
    caller leaves out is [None]: numpy then takes its default. A float literal
    is the rational it is written as. *)
Class Numpy (ndarray : Type) : Type := {
  np_shape : ndarray → list Z;
  (* [a.transpose] applied to the axes *)
  np_transpose : ndarray → list Z → result ndarray;
  (* [numpy.testing.assert_allclose(actual, desired, rtol=.., atol=..)] *)
  np_assert_allclose : ndarray → ndarray → option Q → option Q → result unit
}.

(** [a.ndim] *)
Definition np_ndim `{Numpy ndarray} (a : ndarray) : Z :=
  Z.of_nat (length (np_shape a)).

(** *** A concrete numpy over rationals

    Arrays of finite values in row-major order. *)
Module QArray.

Record qarray : Type := { q_shape : list nat; q_data : list Q }.

(** Row-major strides of a shape. *)
Fixpoint strides (s : list nat) : list nat :=
  match s with
  | [] => []
  | _ :: s' => foldr Nat.mul 1%nat s' :: strides s'
  end.

(** All multi-indices of a shape, in row-major order. *)
Fixpoint indices (s : list nat) : list (list nat) :=
  match s with
  | [] => [[]]
  | n :: s' => i ← seq 0 n; (cons i) <$> indices s'
  end.

(** A negative axis counts from the end. *)
Definition normalize_axis (ndim : nat) (ax : Z) : option nat :=
  let ax' := if ax <? 0 then ax + Z.of_nat ndim else ax in
  if (0 <=? ax') && (ax' <? Z.of_nat ndim) then Some (Z.to_nat ax') else None.

Definition axes_error : exn := ValueError "axes don't match array".

Definition transpose (a : qarray) (axes : list Z) : result qarray :=
  let nd := length (q_shape a) in
  match mapM (normalize_axis nd) axes with
  | None => Raise axes_error
  | Some p =>
      if bool_decide (length p = nd ∧ NoDup p) then
        let st := strides (q_shape a) in
        let shape' := (λ k, default 0%nat (q_shape a !! k)) <$> p in
        let st' := (λ k, default 0%nat (st !! k)) <$> p in
        let flat (j : list nat) := foldr Nat.add 0%nat (zip_with Nat.mul j st') in
        Ok {| q_shape := shape';
              q_data := (λ j, default 0%Q (q_data a !! flat j)) <$> indices shape' |}
      else Raise axes_error
  end.

Definition default_rtol : Q := 1 # 10000000.
Definition default_atol : Q := 0.

(** [|actual - desired| <= atol + rtol * |desired|] *)
Definition close (rtol atol actual desired : Q) : bool :=
  Qle_bool (Qabs (actual - desired)) (atol + rtol * Qabs desired).

(** Shapes must agree unless one side is a scalar, which is broadcast. *)
Definition assert_allclose (actual desired : qarray) (rtol atol : option Q)
    : result unit :=
  let rt := default default_rtol rtol in
  let at_ := default default_atol atol in
  match q_shape actual, q_data actual, q_shape desired, q_data desired with
  | [], [x], _, ds => assert (forallb (close rt at_ x) ds)
  | _, xs, [], [d] => assert (forallb (λ x, close rt at_ x d) xs)
  | sa, xs, sd, ds =>
      _ ← assert (bool_decide (sa = sd));
      assert (forallb (λ xd, close rt at_ xd.1 xd.2) (zip xs ds))
  end.

Global Instance qarray_numpy : Numpy qarray := {|
  np_shape a := Z.of_nat <$> q_shape a;
  np_transpose := transpose;
  np_assert_allclose := assert_allclose
|}.

End QArray.

(** ** converter.py *)

Module converter.

Section Converter.

Context {ndarray : Type} `{!Numpy ndarray}.
(** The naming session of a traced run, the live network of the graph-backend
    pass, the network of the standalone pass, and a saved checkpoint. *)
Context {Naming LiveNetwork TFNetwork Checkpoint : Type}.

(** What the graph-backend pass has when its naming scope is left. *)
Record ReturnnTrace : Type := {
  trace_net_dict : dict;
  trace_axis_to_torch_axis : gmap nat Z;
  trace_network : LiveNetwork
}.

(** The collaborators of the orchestrator: the model function under the
    three import modes, and the graph backend. *)
Record Externals : Type := {
  (* [model_func(None, torch.from_numpy(inputs))], as a numpy array *)
  model_reference : ndarray → result ndarray;
  (* the model function under wrapped imports, with
     [keep_orig_module_io_tensors]: its output and the naming session *)
  model_traced : bool → ndarray → result (ndarray * Naming);
  (* the model function under the replacement imports, between
     [register_input] and [dump_as_returnn_net_dict] *)
  model_returnn : option Naming → dict → ndarray → result ReturnnTrace;
  (* [session.run] on the live network, fed the input and sequence lengths *)
  session_run : LiveNetwork → ndarray → list Z → result (ndarray * list Z);
  save_params_to_file : LiveNetwork → result Checkpoint;
  mkdtemp : string → string;
  (* [TFNetwork(config)] followed by [construct_from_dict(net_dict)] *)
  construct_from_dict : dict → dict → result TFNetwork;
  load_params_from_file : option Checkpoint → TFNetwork → result TFNetwork;
  network_run : TFNetwork → ndarray → list Z → result (ndarray * list Z)
}.

(** Checkpoint files, by path. *)
Abbreviation Files := (gmap string Checkpoint).

Record Converter : Type := {
  _inputs_np : ndarray;
  _in_n_batch : Z;
  _in_n_feature : Z;
  _in_n_time : Z;
  _returnn_in_data_dict : dict;
  use_non_wrapped_reference : bool;
  verify_with_torch : bool;
  verify_individual_model_io : bool;
  import_torch_params : bool;
  export_tf_checkpoint_save_path : option string;
  _tf_checkpoint_save_path : option string;
  verify_returnn_standalone_model : bool;
  _out_ref_np : option ndarray;
  _torch_namespace : option Naming;
  _out_returnn_np : option ndarray;
  _returnn_net_dict : option dict
}.

Definition set_out_ref_np (v : option ndarray) (c : Converter) : Converter :=
  {| _inputs_np := _inputs_np c; _in_n_batch := _in_n_batch c;
     _in_n_feature := _in_n_feature c; _in_n_time := _in_n_time c;
     _returnn_in_data_dict := _returnn_in_data_dict c;
     use_non_wrapped_reference := use_non_wrapped_reference c;
     verify_with_torch := verify_with_torch c;
     verify_individual_model_io := verify_individual_model_io c;
     import_torch_params := import_torch_params c;
     export_tf_checkpoint_save_path := export_tf_checkpoint_save_path c;
     _tf_checkpoint_save_path := _tf_checkpoint_save_path c;
     verify_returnn_standalone_model := verify_returnn_standalone_model c;
     _out_ref_np := v;
     _torch_namespace := _torch_namespace c;
     _out_returnn_np := _out_returnn_np c;
     _returnn_net_dict := _returnn_net_dict c |}.

Definition set_torch_namespace (v : option Naming) (c : Converter) : Converter :=
  {| _inputs_np := _inputs_np c; _in_n_batch := _in_n_batch c;
     _in_n_feature := _in_n_feature c; _in_n_time := _in_n_time c;
     _returnn_in_data_dict := _returnn_in_data_dict c;
     use_non_wrapped_reference := use_non_wrapped_reference c;
     verify_with_torch := verify_with_torch c;
     verify_individual_model_io := verify_individual_model_io c;
     import_torch_params := import_torch_params c;
     export_tf_checkpoint_save_path := export_tf_checkpoint_save_path c;
     _tf_checkpoint_save_path := _tf_checkpoint_save_path c;
     verify_returnn_standalone_model := verify_returnn_standalone_model c;
     _out_ref_np := _out_ref_np c;
     _torch_namespace := v;
     _out_returnn_np := _out_returnn_np c;
     _returnn_net_dict := _returnn_net_dict c |}.

Definition set_returnn_outputs (net_dict : dict) (y : ndarray) (c : Converter)
    : Converter :=
  {| _inputs_np := _inputs_np c; _in_n_batch := _in_n_batch c;
     _in_n_feature := _in_n_feature c; _in_n_time := _in_n_time c;
     _returnn_in_data_dict := _returnn_in_data_dict c;
     use_non_wrapped_reference := use_non_wrapped_reference c;
     verify_with_torch := verify_with_torch c;
     verify_individual_model_io := verify_individual_model_io c;
     import_torch_params := import_torch_params c;
     export_tf_checkpoint_save_path := export_tf_checkpoint_save_path c;
     _tf_checkpoint_save_path := _tf_checkpoint_save_path c;
     verify_returnn_standalone_model := verify_returnn_standalone_model c;
     _out_ref_np := _out_ref_np c;
     _torch_namespace := _torch_namespace c;
     _out_returnn_np := Some y;
     _returnn_net_dict := Some net_dict |}.

Definition set_tf_checkpoint_save_path (v : option string) (c : Converter)
    : Converter :=
  {| _inputs_np := _inputs_np c; _in_n_batch := _in_n_batch c;
     _in_n_feature := _in_n_feature c; _in_n_time := _in_n_time c;
     _returnn_in_data_dict := _returnn_in_data_dict c;
     use_non_wrapped_reference := use_non_wrapped_reference c;
     verify_with_torch := verify_with_torch c;
     verify_individual_model_io := verify_individual_model_io c;
     import_torch_params := import_torch_params c;
     export_tf_checkpoint_save_path := export_tf_checkpoint_save_path c;
     _tf_checkpoint_save_path := v;
     verify_returnn_standalone_model := verify_returnn_standalone_model c;
     _out_ref_np := _out_ref_np c;
     _torch_namespace := _torch_namespace c;
     _out_returnn_np := _out_returnn_np c;
     _returnn_net_dict := _returnn_net_dict c |}.

(** [Converter.__init__], lines 67-81; unpacking [inputs.shape] needs rank 3. *)
Definition Converter__init__ (inputs : ndarray)
    (use_non_wrapped_reference verify_with_torch verify_individual_model_io
     import_torch_params : bool)
    (export_tf_checkpoint_save_path : option string)
    (verify_returnn_standalone_model : bool) : result Converter :=
  match np_shape inputs with
  | [n_batch; n_feature; n_time] =>
      Ok {| _inputs_np := inputs; _in_n_batch := n_batch;
            _in_n_feature := n_feature; _in_n_time := n_time;
            _returnn_in_data_dict :=
              [("shape", VTuple [VInt n_feature; VNone]);
               ("feature_dim_axis", VInt 1); ("time_dim_axis", VInt 2)];
            use_non_wrapped_reference := use_non_wrapped_reference;
            verify_with_torch := verify_with_torch;
            verify_individual_model_io := verify_individual_model_io;
            import_torch_params := import_torch_params;
            export_tf_checkpoint_save_path := export_tf_checkpoint_save_path;
            _tf_checkpoint_save_path := None;
            verify_returnn_standalone_model := verify_returnn_standalone_model;
            _out_ref_np := None; _torch_namespace := None;
            _out_returnn_np := None; _returnn_net_dict := None |}
  | _ => Raise (ValueError "wrong number of values to unpack")
  end.

Variable ext : Externals.

(** [[self._in_n_time] * self._in_n_batch] *)
Definition seq_lens (self : Converter) : list Z :=
  replicate (Z.to_nat (_in_n_batch self)) (_in_n_time self).

(** Stage A, lines 92-109. *)
Definition _run_reference (self : Converter) : result Converter :=
  out_ref_np ← model_reference ext (_inputs_np self);
  Ok (set_out_ref_np (Some out_ref_np) self).

(** Stage B, lines 111-143. *)
Definition _run_traced_orig_torch (self : Converter) : result Converter :=
  '(out_wrapped_np, naming) ←
     model_traced ext (verify_individual_model_io self) (_inputs_np self);
  let self := set_torch_namespace (Some naming) self in
  match _out_ref_np self with
  | Some out_ref_np =>
      _ ← assert (bool_decide (np_shape out_ref_np = np_shape out_wrapped_np));
      _ ← np_assert_allclose out_ref_np out_wrapped_np None None;
      Ok self
  | None => Ok (set_out_ref_np (Some out_wrapped_np) self)
  end.

(** [[returnn_axis_to_torch_axis[i] for i in range(y_.ndim)]] *)
Definition torch_axes (m : gmap nat Z) (ndim : Z) : result (list Z) :=
  foldr (λ i acc,
           match m !! i with
           | Some ax => rest ← acc; Ok (ax :: rest)
           | None => Raise KeyError
           end)
        (Ok []) (range ndim).

(** Truth value of an optional path: [None] and the empty string are false. *)
Definition path_given (p : option string) : bool :=
  match p with
  | Some s => negb (bool_decide (s = ""))
  | None => false
  end.

(** Stage C, lines 145-199: the new state and the checkpoint files. *)
Definition _run_torch_returnn_drop_in (self : Converter) (files : Files)
    : result (Converter * Files) :=
  tr ← model_returnn ext (_torch_namespace self) (_returnn_in_data_dict self)
         (_inputs_np self);
  '(y_, y_size) ← session_run ext (trace_network tr) (_inputs_np self) (seq_lens self);
  let self := set_returnn_outputs (trace_net_dict tr) y_ self in
  axes ← torch_axes (trace_axis_to_torch_axis tr) (np_ndim y_);
  y_torch ← np_transpose y_ axes;
  _ ← match _out_ref_np self with
      | Some out_ref_np =>
          np_assert_allclose out_ref_np y_torch (Some 0%Q) (Some (1 # 10000)%Q)
      | None => Ok tt
      end;
  if path_given (export_tf_checkpoint_save_path self)
     || verify_returnn_standalone_model self
  then
    let path := if path_given (export_tf_checkpoint_save_path self)
                then default "" (export_tf_checkpoint_save_path self)
                else mkdtemp ext "tmp-returnn-tf-checkpoint" +:+ "/model" in
    ckpt ← save_params_to_file ext (trace_network tr);
    Ok (set_tf_checkpoint_save_path (Some path) self, <[path := ckpt]> files)
  else Ok (self, files).

(** Stage D, lines 201-225. *)
Definition _run_returnn_standalone (self : Converter) (files : Files)
    : result unit :=
  net_dict ← match _returnn_net_dict self with
             | Some d => Ok d
             | None => Raise TypeError
             end;
  network ← construct_from_dict ext
              [("extern_data", VDict [("data", VDict (_returnn_in_data_dict self))]);
               ("debug_print_layer_output_template", VInt 1)]
              net_dict;
  network ← load_params_from_file ext
              (path ← _tf_checkpoint_save_path self; files !! path) network;
  '(y_, y_size) ← network_run ext network (_inputs_np self) (seq_lens self);
  out_returnn_np ← match _out_returnn_np self with
                   | Some a => Ok a
                   | None => Raise TypeError
                   end;
  np_assert_allclose out_returnn_np y_ (Some 0%Q) (Some (1 # 10000)%Q).

(** [Converter.run], lines 83-90. *)
Definition run (self : Converter) (files : Files) : result (Converter * Files) :=
  self ← (if use_non_wrapped_reference self then _run_reference self else Ok self);
  self ← (if verify_with_torch self || verify_individual_model_io self
             || import_torch_params self
          then _run_traced_orig_torch self else Ok self);
  '(self, files) ← _run_torch_returnn_drop_in self files;
  _ ← (if verify_returnn_standalone_model self
       then _run_returnn_standalone self files else Ok tt);
  Ok (self, files).

(** [verify_torch_and_convert_to_returnn], lines 228-246: every option keeps
    its default. *)
Definition verify_torch_and_convert_to_returnn (inputs : ndarray) (files : Files)
    : result (Converter * Files) :=
  converter ← Converter__init__ inputs true true true true None true;
  run converter files.

End Converter.

End converter.

(** * Vocabulary of the properties *)

Import rnn.
Import converter.

Definition is_digit (c : ascii) : bool :=
  (48 <=? nat_of_ascii c)%nat && (nat_of_ascii c <=? 57)%nat.

Fixpoint all_digits (s : string) : bool :=
  match s with
  | EmptyString => true
  | String c s' => is_digit c && all_digits s'
  end.

(** Empty, or starting with a character that is not a digit. *)
Definition no_digit_ahead (s : string) : bool :=
  match s with
  | EmptyString => true
  | String c _ => negb (is_digit c)
  end.

Definition weight_prefixes : list string := ["weight_ih_l"; "weight_hh_l"].
Definition bias_prefixes : list string := ["bias_ih_l"; "bias_hh_l"].
Definition all_prefixes : list string := (weight_prefixes ++ bias_prefixes)%list.

(** The iterations of the two nested loops of the constructor, in order. *)
Definition iterations (bidirectional : bool) (num_layers : Z) : list (nat * nat) :=
  l ← range num_layers; d ← range (num_directions bidirectional); [(l, d)].

(** The [setattr] calls of one iteration. *)
Definition step_pairs (input_size hidden_size gate_size : Z)
    (bidirectional bias : bool) (ld : nat * nat)
    : list (string * TorchParameter) :=
  zip (param_names bias ld.1 ld.2)
      (layer_params gate_size
         (layer_input_size input_size hidden_size
            (num_directions bidirectional) ld.1) hidden_size).

Definition recognised_modes : list string := ["LSTM"; "GRU"; "RNN_TANH"; "RNN_RELU"].

(** The gate multiplier the specification gives for each mode. *)
Definition gate_multiplier (mode : string) (k : Z) : Prop :=
  mode = "LSTM" ∧ k = 4 ∨ mode = "GRU" ∧ k = 3 ∨
  mode = "RNN_TANH" ∧ k = 1 ∨ mode = "RNN_RELU" ∧ k = 1.

(** [0 <= dropout <= 1] *)
Definition dropout_in_range (dropout : number) : bool :=
  zero_le dropout && le_one dropout.

Definition rank_error (expected actual : Z) : exn :=
  RuntimeError ("input must have " +:+ strZ expected +:+
                " dimensions, got " +:+ strZ actual).

Definition feature_error (expected actual : Z) : exn :=
  RuntimeError ("input.size(-1) must be equal to input_size. Expected " +:+
                strZ expected +:+ ", got " +:+ strZ actual).

Definition hidden_error (what : string) (expected actual : list Z) : exn :=
  RuntimeError (what +:+ str_tuple expected +:+ ", got " +:+ str_list actual).

(** The recurrent node of layer [i] in the subnetwork of a stacked LSTM. *)
Definition subnetwork_layer (i : nat) : string * value :=
  ("layer" +:+ str i,
   VDict [("class", VStr "rec"); ("unit", VStr "nativelstm2");
          ("from", VStr (if decide (i = 0%nat) then "data"
                         else "layer" +:+ str (i - 1)))]).

(** The alias node closing a subnetwork of [n] layers. *)
Definition subnetwork_output (n : nat) : string * value :=
  ("output", VDict [("class", VStr "copy");
                    ("from", VStr ("layer" +:+ str (n - 1)))]).

(** The absolute tolerance of Stages C and D. *)
Definition atol_1e_4 : Q := 1 # 10000.

(** A concrete run: the model maps a (1, 2, 3) input [batch, feature, time]
    to an output of the same shape; the graph backend returns it as
    [batch, time, feature]. *)
Module demo.
Import QArray.

Definition inputs : qarray :=
  {| q_shape := [1; 2; 3]%nat; q_data := [1; 2; 3; 4; 5; 6]%Q |}.

Definition out_torch : qarray :=
  {| q_shape := [1; 2; 3]%nat; q_data := [1; 2; 3; 4; 5; 6]%Q |}.

(** The same values, one unit in the last place of a float32 below 1 apart
    in the first entry. *)
Definition out_traced_near : qarray :=
  {| q_shape := [1; 2; 3]%nat;
     q_data := [16777215 # 16777216; 2; 3; 4; 5; 6]%Q |}.

Definition out_returnn : qarray :=
  {| q_shape := [1; 3; 2]%nat; q_data := [1; 4; 2; 5; 3; 6]%Q |}.

Definition net_dict : dict :=
  [("lstm", VDict [("class", VStr "rec"); ("unit", VStr "nativelstm2");
                   ("from", VStr "data")]);
   ("output", VDict [("class", VStr "copy"); ("from", VStr "lstm")])].

Definition axis_map : gmap nat Z := {[ 0%nat := 0; 1%nat := 2; 2%nat := 1 ]}.

(** Collaborators whose traced run returns [traced]. *)
Definition externals (traced : qarray)
    : Externals (ndarray := qarray) (Naming := unit) (LiveNetwork := unit)
                (TFNetwork := dict * option unit) (Checkpoint := unit) :=
  {| model_reference := λ _, Ok out_torch;
     model_traced := λ _ _, Ok (traced, tt);
     model_returnn := λ _ _ _,
       Ok {| trace_net_dict := net_dict;
             trace_axis_to_torch_axis := axis_map;
             trace_network := tt |};
     session_run := λ _ _ lens, Ok (out_returnn, lens);
     save_params_to_file := λ _, Ok tt;
     mkdtemp := λ sfx, "/tmp/" +:+ sfx;
     construct_from_dict := λ _ d, Ok (d, None);
     load_params_from_file := λ ck net,
       match ck with
       | Some _ => Ok (net.1, ck)
       | None => Raise (RuntimeError "checkpoint not found")
       end;
     network_run := λ _ _ lens, Ok (out_returnn, lens) |}.

End demo.

(** The state after construction with all stages switched on. *)
Definition demo_converter (use_reference : bool)
    : result (@Converter QArray.qarray unit) :=
  Converter__init__ demo.inputs use_reference true true true None true.

(** The state Stage C starts from when Stages A and B have run. *)
Definition demo_before_C : result (@Converter QArray.qarray unit) :=
  c0 ← demo_converter true;
  c1 ← _run_reference (demo.externals demo.out_torch) c0;
  _run_traced_orig_torch (demo.externals demo.out_torch) c1.

(** The state Stage D starts from, with the checkpoint files. *)
Definition demo_before_D
    : result (@Converter QArray.qarray unit * gmap string unit) :=
  c2 ← demo_before_C;
  _run_torch_returnn_drop_in (demo.externals demo.out_torch) c2 ∅.

Section orchestrator_vocabulary.

Context {ndarray Naming LiveNetwork TFNetwork Checkpoint : Type}.

(** Whether [run] runs Stage B. *)
Definition runs_stage_B (self : @Converter ndarray Naming) : bool :=
  verify_with_torch self || verify_individual_model_io self
  || import_torch_params self.

(** Whether Stage C saves a checkpoint. *)
Definition saves_checkpoint (self : @Converter ndarray Naming) : bool :=
  path_given (export_tf_checkpoint_save_path self)
  || verify_returnn_standalone_model self.

(** The path Stage C saves the checkpoint under, when it saves one. *)
Definition checkpoint_path
    (ext : @Externals ndarray Naming LiveNetwork TFNetwork Checkpoint)
    (self : @Converter ndarray Naming) : string :=
  if path_given (export_tf_checkpoint_save_path self)
  then default "" (export_tf_checkpoint_save_path self)
  else mkdtemp ext "tmp-returnn-tf-checkpoint" +:+ "/model".

End orchestrator_vocabulary.

(** * Properties *)

(** ** Strings and printed numbers *)

Section printed_numbers.

Lemma app_String c s t : String c s +:+ t = String c (s +:+ t).
Proof. reflexivity. Qed.

Lemma app_empty_l t : "" +:+ t = t.
Proof. reflexivity. Qed.

Lemma app_empty_r s : s +:+ "" = s.
Proof. induction s as [|c s IH]; [done|]. by rewrite app_String, IH. Qed.

Lemma app_app s t u : (s +:+ t) +:+ u = s +:+ (t +:+ u).
Proof. induction s as [|c s IH]; [done|]. by rewrite !app_String, IH. Qed.

Lemma all_digits_app s t :
  all_digits (s +:+ t) = all_digits s && all_digits t.
Proof.
  induction s as [|c s IH]; [done|].
  rewrite app_String. simpl. by rewrite IH, andb_assoc.
Qed.

Lemma pretty_N_char_digit x : is_digit (pretty_N_char x) = true.
Proof. unfold pretty_N_char. by repeat case_match. Qed.

Lemma pretty_N_go_digits x s :
  ∃ d, pretty_N_go x s = d +:+ s ∧ all_digits d = true.
Proof.
  revert s. induction (N.lt_wf_0 x) as [x _ IH]; intros s.
  destruct (decide (x = 0)%N) as [->|Hx].
  { exists "". by rewrite pretty_N_go_0. }
  rewrite pretty_N_go_step by lia.
  destruct (IH (x `div` 10)%N) with (s := String (pretty_N_char (x `mod` 10)) s)
    as (d & -> & Hd).
  { apply N.div_lt; lia. }
  exists (d +:+ String (pretty_N_char (x `mod` 10)) ""). split.
  - by rewrite app_app, app_String, app_empty_l.
  - rewrite all_digits_app, Hd. simpl. by rewrite pretty_N_char_digit.
Qed.

Lemma str_digits (i : nat) : all_digits (str i) = true.
Proof.
  unfold str, pretty, pretty_nat, pretty, pretty_N.
  case_decide; [done|].
  destruct (pretty_N_go_digits (N.of_nat i) "") as (d & -> & Hd).
  by rewrite app_empty_r.
Qed.

(** A run of digits followed by something that does not go on with a digit
    can be split in one way only. *)
Lemma digits_split_unique d1 d2 s1 s2 :
  all_digits d1 = true → all_digits d2 = true →
  no_digit_ahead s1 = true → no_digit_ahead s2 = true →
  d1 +:+ s1 = d2 +:+ s2 → d1 = d2 ∧ s1 = s2.
Proof.
  revert d2. induction d1 as [|c d1 IH]; intros [|c' d2] H1 H2 Hs1 Hs2 Heq.
  - done.
  - rewrite app_empty_l, app_String in Heq. subst s1. simpl in *.
    apply andb_true_iff in H2 as [Hc _]. by rewrite Hc in Hs1.
  - rewrite app_empty_l, app_String in Heq. subst s2. simpl in *.
    apply andb_true_iff in H1 as [Hc _]. by rewrite Hc in Hs2.
  - rewrite !app_String in Heq. injection Heq as -> Heq. simpl in *.
    apply andb_true_iff in H1 as [_ H1]. apply andb_true_iff in H2 as [_ H2].
    destruct (IH d2 H1 H2 Hs1 Hs2 Heq) as [-> ->]. done.
Qed.

Lemma str_inj (i j : nat) : str i = str j → i = j.
Proof. apply (inj pretty). Qed.

Lemma strZ_of_nat (n : nat) : strZ (Z.of_nat n) = str n.
Proof. destruct n; reflexivity. Qed.

End printed_numbers.

(** ** The constructor of the recurrent module *)


Section parameter_names.

Lemma suffix_no_digit_ahead d : no_digit_ahead (suffix d) = true.
Proof. unfold suffix. by case_decide. Qed.

Lemma suffix_inj (d d' : nat) :
  (d < 2)%nat → (d' < 2)%nat → suffix d = suffix d' → d = d'.
Proof.
  destruct d as [|[|d]], d' as [|[|d']]; intros Hd Hd' Heq;
    try done; exfalso; clear Heq; revert Hd Hd'; apply Nat.lt_irrefl || idtac;
    intros; lia.
Qed.

Lemma str_suffix_inj (l l' d d' : nat) :
  str l +:+ suffix d = str l' +:+ suffix d' → l = l' ∧ suffix d = suffix d'.
Proof.
  intros Heq.
  apply digits_split_unique in Heq
    as [?%str_inj ?]; auto using str_digits, suffix_no_digit_ahead.
Qed.

(** Two formatted parameter names agree only if they were made from the same
    prefix, layer and suffix. *)
Lemma format_name_inj (l l' d d' : nat) p p' :
  p ∈ all_prefixes → p' ∈ all_prefixes →
  format_name l (suffix d) p = format_name l' (suffix d') p' →
  p = p' ∧ l = l' ∧ suffix d = suffix d'.
Proof.
  unfold all_prefixes, weight_prefixes, bias_prefixes, format_name. simpl.
  rewrite !elem_of_cons, !elem_of_nil.
  intros [->|[->|[->|[->|[]]]]] [->|[->|[->|[->|[]]]]] Heq;
    rewrite ?app_String, ?app_empty_l in Heq;
    try discriminate Heq;
    (split; [done|]); simplify_eq; by apply str_suffix_inj.
Qed.

Lemma param_names_prefixes (bias : bool) (l d : nat) (name : string) :
  name ∈ param_names bias l d ↔
  ∃ p, p ∈ (weight_prefixes ++ (if bias then bias_prefixes else []))%list
       ∧ name = format_name l (suffix d) p.
Proof.
  unfold param_names, weight_prefixes, bias_prefixes.
  rewrite list_elem_of_fmap. split; intros (p & ? & ?); by exists p.
Qed.

Lemma prefixes_sub (bias : bool) (p : string) :
  p ∈ (weight_prefixes ++ (if bias then bias_prefixes else []))%list →
  p ∈ all_prefixes.
Proof.
  unfold all_prefixes. rewrite !elem_of_app. destruct bias; [tauto|].
  rewrite elem_of_nil. tauto.
Qed.

Lemma param_names_NoDup bias l d : NoDup (param_names bias l d).
Proof.
  unfold param_names. apply NoDup_fmap_2_strong.
  - intros p p' Hp Hp' Heq.
    by apply format_name_inj in Heq as [? _]; [|by apply prefixes_sub with bias..].
  - destruct bias; by apply (bool_decide_unpack _).
Qed.

Lemma param_names_length bias l d :
  length (param_names bias l d) = if bias then 4%nat else 2%nat.
Proof. by destruct bias. Qed.

End parameter_names.

Section constructor_loops.

Context (input_size hidden_size gate_size : Z) (bidirectional bias : bool).
Let nd := num_directions bidirectional.

Local Abbreviation its_of := (iterations bidirectional).
Local Abbreviation pairs_of :=
  (step_pairs input_size hidden_size gate_size bidirectional bias).

Lemma foldl_bind {A B C} (f : A → C → A) (g : B → list C) (a : A) (l : list B) :
  foldl f a (l ≫= g) = foldl (λ a x, foldl f a (g x)) a l.
Proof.
  revert a. induction l as [|x l IH]; intros a; [done|].
  by rewrite bind_cons, foldl_app, IH.
Qed.

Lemma foldl_ext {A B} (f g : A → B → A) (a : A) (l : list B) :
  (∀ a x, f a x = g a x) → foldl f a l = foldl g a l.
Proof.
  intros Hfg. revert a. induction l as [|x l IH]; intros a; [done|].
  simpl. by rewrite Hfg, IH.
Qed.

Lemma NoDup_reverse {A} (l : list A) : NoDup l → NoDup (reverse l).
Proof. by rewrite reverse_Permutation. Qed.

Lemma foldl_insert_list_to_map (kvs : list (string * TorchParameter)) :
  foldl (λ m kv, <[kv.1 := kv.2]> m) ∅ kvs
  = (list_to_map (reverse kvs) : gmap string TorchParameter).
Proof.
  induction kvs as [|[k v] kvs IH] using rev_ind; [done|].
  by rewrite foldl_snoc, reverse_snoc, list_to_map_cons, IH.
Qed.

Lemma init_loop_flat (its : list (nat * nat)) (st : init_state) :
  foldl (λ st ld, init_direction input_size hidden_size gate_size nd bias
                    ld.1 st ld.2) st its
  = (foldl (λ m kv, <[kv.1 := kv.2]> m) st.1 (its ≫= pairs_of),
     (st.2 ++ ((λ ld, param_names bias ld.1 ld.2) <$> its))%list).
Proof.
  revert st. induction its as [|ld its IH]; intros [m w].
  { simpl. by rewrite app_nil_r. }
  rewrite bind_cons, foldl_app. simpl. rewrite IH. simpl.
  by rewrite <- app_assoc.
Qed.

Lemma init_weights_flat (num_layers : Z) :
  init_weights input_size hidden_size gate_size nd num_layers bias
  = (list_to_map (reverse (its_of num_layers ≫= pairs_of)),
     (λ ld, param_names bias ld.1 ld.2) <$> its_of num_layers).
Proof.
  unfold init_weights, init_layer.
  transitivity
    (foldl (λ st ld, init_direction input_size hidden_size gate_size nd bias
                       ld.1 st ld.2) (∅, []) (its_of num_layers)).
  - unfold iterations. rewrite foldl_bind. apply foldl_ext.
    intros st l. rewrite foldl_bind. by apply foldl_ext.
  - by rewrite init_loop_flat, foldl_insert_list_to_map.
Qed.

Lemma elem_of_iterations (num_layers : Z) (l d : nat) :
  (l, d) ∈ its_of num_layers ↔
  (l < Z.to_nat num_layers)%nat ∧ (d < Z.to_nat nd)%nat.
Proof.
  unfold iterations, range. rewrite list_elem_of_bind. split.
  - intros (l' & (d' & Hin & Hd)%list_elem_of_bind & Hl).
    apply list_elem_of_singleton in Hin. simplify_eq.
    apply elem_of_seq in Hl, Hd. lia.
  - intros [Hl Hd]. exists l. split; [|apply elem_of_seq; lia].
    apply list_elem_of_bind. exists d. split; [by apply list_elem_of_singleton|].
    apply elem_of_seq; lia.
Qed.

Lemma iterations_direction (num_layers : Z) (l d : nat) :
  (l, d) ∈ its_of num_layers → (d < 2)%nat.
Proof.
  rewrite elem_of_iterations. subst nd. unfold num_directions.
  destruct bidirectional; simpl; lia.
Qed.

Lemma iterations_NoDup (num_layers : Z) : NoDup (its_of num_layers).
Proof.
  unfold iterations. apply NoDup_bind; [| |apply NoDup_seq].
  - intros l l' [a b] _ _ (x & Hx & _)%list_elem_of_bind
      (y & Hy & _)%list_elem_of_bind.
    apply list_elem_of_singleton in Hx, Hy. congruence.
  - intros l _. apply NoDup_bind; [| |apply NoDup_seq].
    + intros x y z _ _ Hx%list_elem_of_singleton Hy%list_elem_of_singleton.
      congruence.
    + intros x _. apply NoDup_singleton.
Qed.

Lemma length_bind_const {A B} (g : A → list B) (k : nat) (l : list A) :
  (∀ x, length (g x) = k) → length (l ≫= g) = (length l * k)%nat.
Proof.
  intros Hg. induction l as [|x l IH]; [done|].
  rewrite bind_cons, length_app, IH, Hg. simpl. lia.
Qed.

Lemma iterations_length (num_layers : Z) :
  length (its_of num_layers)
  = (Z.to_nat num_layers * Z.to_nat nd)%nat.
Proof.
  unfold iterations, range.
  rewrite (length_bind_const _ (Z.to_nat nd)), length_seq; [done|].
  intros l. rewrite (length_bind_const _ 1%nat), length_seq; [lia|done].
Qed.

Lemma step_pairs_keys (ld : nat * nat) :
  (pairs_of ld).*1 = param_names bias ld.1 ld.2.
Proof.
  unfold step_pairs. apply fst_zip.
  rewrite param_names_length. unfold layer_params. destruct bias; simpl; lia.
Qed.

Lemma step_pairs_length (ld : nat * nat) :
  length (pairs_of ld) = if bias then 4%nat else 2%nat.
Proof. by rewrite <- (length_fmap fst), step_pairs_keys, param_names_length. Qed.

Lemma all_pairs_keys (its : list (nat * nat)) :
  (its ≫= pairs_of).*1 = its ≫= (λ ld, param_names bias ld.1 ld.2).
Proof.
  induction its as [|ld its IH]; [done|].
  by rewrite !bind_cons, fmap_app, IH, step_pairs_keys.
Qed.

Lemma all_pairs_length (its : list (nat * nat)) :
  length (its ≫= pairs_of)
  = (length its * if bias then 4 else 2)%nat.
Proof. apply length_bind_const, step_pairs_length. Qed.

Lemma all_pairs_NoDup (num_layers : Z) :
  NoDup (its_of num_layers ≫= pairs_of).*1.
Proof.
  rewrite all_pairs_keys. apply NoDup_bind; [| |apply iterations_NoDup].
  - intros [l d] [l' d'] name Hld Hld'.
    intros (p & Hp & ->)%param_names_prefixes (p' & Hp' & Heq)%param_names_prefixes.
    simpl in *. apply format_name_inj in Heq as (_ & -> & Hs);
      [|by apply prefixes_sub with bias..].
    f_equal. eapply suffix_inj; eauto using iterations_direction.
  - intros ld _. apply param_names_NoDup.
Qed.

(** What the attribute store holds once the loops are done. *)
Lemma init_weights_lookup (num_layers : Z) (name : string) (p : TorchParameter) :
  (init_weights input_size hidden_size gate_size nd num_layers bias).1 !! name
    = Some p
  ↔ ∃ ld, ld ∈ its_of num_layers ∧ (name, p) ∈ pairs_of ld.
Proof.
  rewrite init_weights_flat. simpl.
  rewrite <- elem_of_list_to_map
    by (rewrite fmap_reverse; apply NoDup_reverse, all_pairs_NoDup).
  rewrite elem_of_reverse, list_elem_of_bind.
  split; intros (ld & ? & ?); by exists ld.
Qed.

Lemma init_weights_lookup_None (num_layers : Z) (name : string) :
  (∀ ld, ld ∈ its_of num_layers → name ∉ param_names bias ld.1 ld.2) →
  (init_weights input_size hidden_size gate_size nd num_layers bias).1 !! name
    = None.
Proof.
  intros Hnot. rewrite init_weights_flat. simpl.
  apply not_elem_of_list_to_map_1.
  rewrite fmap_reverse, elem_of_reverse, all_pairs_keys, list_elem_of_bind.
  intros (ld & Hin & Hld). by apply (Hnot ld).
Qed.

Lemma init_weights_size (num_layers : Z) :
  size (init_weights input_size hidden_size gate_size nd num_layers bias).1
  = (Z.to_nat num_layers * Z.to_nat nd * if bias then 4 else 2)%nat.
Proof.
  rewrite init_weights_flat. simpl.
  rewrite map_size_list_to_map
    by (rewrite fmap_reverse; apply NoDup_reverse, all_pairs_NoDup).
  by rewrite length_reverse, all_pairs_length, iterations_length.
Qed.

End constructor_loops.

Section constructor.

Lemma gate_size_of_Ok mode hidden_size g :
  gate_size_of mode hidden_size = Ok g →
  ∃ k, gate_multiplier mode k ∧ g = k * hidden_size.
Proof.
  unfold gate_size_of, gate_multiplier. intros Hg.
  repeat case_decide; simplify_eq.
  - exists 4. tauto.
  - exists 3. tauto.
  - exists 1. split; [tauto|lia].
  - exists 1. split; [tauto|lia].
Qed.

Lemma gate_size_of_unrecognised mode hidden_size :
  mode ∉ recognised_modes →
  gate_size_of mode hidden_size
  = Raise (ValueError ("Unrecognized RNN mode: " +:+ mode)).
Proof.
  unfold recognised_modes, gate_size_of. rewrite !not_elem_of_cons.
  intros (? & ? & ? & ? & _). by repeat case_decide.
Qed.

Lemma gate_size_of_recognised mode hidden_size :
  mode ∈ recognised_modes → returns (gate_size_of mode hidden_size).
Proof.
  unfold recognised_modes, gate_size_of, returns.
  rewrite !elem_of_cons, elem_of_nil.
  intros [->|[->|[->|[->|[]]]]]; simpl; eauto.
Qed.

(** What a successful construction went through. *)
Lemma RNNBase__init__Ok c mode input_size hidden_size num_layers bias batch_first
    dropout bidirectional w m :
  RNNBase__init__ c mode input_size hidden_size num_layers bias batch_first
    dropout bidirectional = (w, Ok m) →
  check_dropout dropout = Ok tt ∧
  w = dropout_warnings dropout num_layers ∧
  reset_parameters hidden_size = Ok tt ∧
  ∃ gate_size,
    gate_size_of mode hidden_size = Ok gate_size ∧
    let st := init_weights input_size hidden_size gate_size
                (num_directions bidirectional) num_layers bias in
    parameters m = st.1 ∧ _all_weights m = st.2 ∧
    cls m = c ∧ rnn.mode m = mode ∧ rnn.input_size m = input_size ∧
    rnn.hidden_size m = hidden_size ∧ rnn.num_layers m = num_layers ∧
    rnn.bias m = bias ∧ rnn.batch_first m = batch_first ∧
    rnn.bidirectional m = bidirectional.
Proof.
  unfold RNNBase__init__. destruct (check_dropout dropout) as [[]|e]; [|done].
  destruct (gate_size_of mode hidden_size) as [g|e]; simpl; [|done].
  destruct (reset_parameters hidden_size) as [[]|e]; simpl; [|done].
  intros [= <- <-]. split_and!; try done. exists g. by split_and!.
Qed.

(** ** C5 *)

(** C5. A recurrent module whose construction succeeds has, for every layer
    and direction, an input weight of shape (gate_size, layer_input_size), a
    hidden weight of shape (gate_size, hidden_size) and, when bias is enabled,
    two biases of shape (gate_size,), where gate_size is 4, 3, 1, 1 times
    hidden_size for LSTM, GRU, RNN_TANH, RNN_RELU and layer_input_size is
    input_size for layer 0 and hidden_size times the number of directions
    after; 4 names are registered per layer and direction with bias and 2
    without; a mode string other than these four is rejected. *)
Theorem C5_parameter_sets c mode input_size hidden_size num_layers bias
    batch_first dropout bidirectional :
  let r := (RNNBase__init__ c mode input_size hidden_size num_layers bias
              batch_first dropout bidirectional).2 in
  (mode ∉ recognised_modes → raises r) ∧
  ∀ m, r = Ok m →
    ∃ multiplier, gate_multiplier mode multiplier ∧
      let gate_size := multiplier * hidden_size in
      let nd := num_directions bidirectional in
      let per_layer := if bias then 4%nat else 2%nat in
      (∀ layer direction : nat,
         Z.of_nat layer < num_layers → Z.of_nat direction < nd →
         let layer_input_size :=
           if decide (layer = 0%nat) then input_size else hidden_size * nd in
         let name prefix :=
           prefix +:+ str layer +:+
           (if decide (direction = 1%nat) then "_reverse" else "") in
         parameters m !! name "weight_ih_l"
           = Some {| param_shape := [gate_size; layer_input_size] |} ∧
         parameters m !! name "weight_hh_l"
           = Some {| param_shape := [gate_size; hidden_size] |} ∧
         parameters m !! name "bias_ih_l"
           = (if bias then Some {| param_shape := [gate_size] |} else None) ∧
         parameters m !! name "bias_hh_l"
           = (if bias then Some {| param_shape := [gate_size] |} else None) ∧
         (name <$> (["weight_ih_l"; "weight_hh_l"] ++
                    if bias then ["bias_ih_l"; "bias_hh_l"] else []))%list
           ∈ _all_weights m) ∧
      Forall (λ names, length names = per_layer) (_all_weights m) ∧
      length (_all_weights m) = (Z.to_nat num_layers * Z.to_nat nd)%nat ∧
      size (parameters m) = (Z.to_nat num_layers * Z.to_nat nd * per_layer)%nat.
Proof.
  intros r. split.
  - intros Hmode. subst r. unfold RNNBase__init__.
    destruct (check_dropout dropout) as [[]|e]; [|by eexists].
    simpl. rewrite gate_size_of_unrecognised by done. by eexists.
  - intros m Hm.
    destruct (RNNBase__init__ c mode input_size hidden_size num_layers bias
                batch_first dropout bidirectional) as [w r'] eqn:Hinit.
    subst r. simpl in Hm. subst r'.
    apply RNNBase__init__Ok in Hinit
      as (_ & _ & _ & g & Hg & Hp & Hw & _).
    apply gate_size_of_Ok in Hg as (k & Hk & ->).
    exists k. split; [done|]. simpl. rewrite Hp, Hw. split_and!.
    + intros layer direction Hlayer Hdir.
      assert ((layer, direction) ∈ iterations bidirectional num_layers) as Hin.
      { apply elem_of_iterations. lia. }
      assert (∀ prefix p,
        (format_name layer (suffix direction) prefix, p)
          ∈ step_pairs input_size hidden_size (k * hidden_size) bidirectional
              bias (layer, direction) →
        (init_weights input_size hidden_size (k * hidden_size)
           (num_directions bidirectional) num_layers bias).1
          !! format_name layer (suffix direction) prefix = Some p) as Hsome.
      { intros prefix p Hpair. apply init_weights_lookup. eauto. }
      assert (bias = false → ∀ prefix, prefix ∈ bias_prefixes →
        (init_weights input_size hidden_size (k * hidden_size)
           (num_directions bidirectional) num_layers bias).1
          !! format_name layer (suffix direction) prefix = None) as Hnone.
      { intros -> prefix Hprefix. apply init_weights_lookup_None.
        intros [l d] _ (p' & Hp' & Heq)%param_names_prefixes. simpl in *.
        apply format_name_inj in Heq as (-> & _).
        - revert Hprefix Hp'. unfold bias_prefixes, weight_prefixes. simpl.
          rewrite !elem_of_cons, !elem_of_nil. intuition congruence.
        - unfold all_prefixes. rewrite elem_of_app. by right.
        - by apply prefixes_sub with false. }
      unfold format_name, suffix, step_pairs, layer_input_size in *.
      split_and!.
      * apply Hsome. destruct bias; simpl; apply list_elem_of_here.
      * apply Hsome. destruct bias; simpl;
          apply list_elem_of_further, list_elem_of_here.
      * destruct bias.
        -- apply Hsome. simpl.
           do 2 apply list_elem_of_further. apply list_elem_of_here.
        -- apply Hnone; [done|]. apply list_elem_of_here.
      * destruct bias.
        -- apply Hsome. simpl.
           do 3 apply list_elem_of_further. apply list_elem_of_here.
        -- apply Hnone; [done|]. apply list_elem_of_further, list_elem_of_here.
      * rewrite init_weights_flat. simpl. apply list_elem_of_fmap.
        exists (layer, direction). split; [|done]. done.
    + rewrite init_weights_flat. simpl. apply Forall_fmap, Forall_forall.
      intros ld _. apply param_names_length.
    + rewrite init_weights_flat. simpl.
      by rewrite length_fmap, iterations_length.
    + apply init_weights_size.
Qed.

End constructor.

Section dropout.

Lemma dropout_msg_not_mode mode :
  ValueError ("Unrecognized RNN mode: " +:+ mode) ≠ ValueError dropout_msg.
Proof. unfold dropout_msg. rewrite !app_String. discriminate. Qed.

Lemma check_dropout_spec dropout :
  check_dropout dropout = Raise (ValueError dropout_msg) ↔
  float dropout = Ok tt ∧
  (is_bool dropout = true ∨ dropout_in_range dropout = false).
Proof.
  unfold check_dropout, dropout_in_range, is_Number.
  destruct (float dropout) as [[]|e] eqn:Hfloat; simpl.
  - destruct (zero_le dropout && le_one dropout), (is_bool dropout); simpl;
      intuition congruence.
  - split; [|intros [[=] _]]. intros [= ->].
    destruct dropout as [| z |]; simpl in Hfloat; try done.
    by destruct (int_fits_float z).
Qed.

Lemma check_dropout_Ok dropout :
  float dropout = Ok tt → is_bool dropout = false →
  dropout_in_range dropout = true → check_dropout dropout = Ok tt.
Proof.
  unfold check_dropout, dropout_in_range, is_Number.
  by intros -> -> ->.
Qed.

Lemma reset_parameters_Ok hidden_size :
  0 < hidden_size → int_fits_float hidden_size = true →
  reset_parameters hidden_size = Ok tt.
Proof.
  unfold reset_parameters, inv_sqrt. intros Hpos ->. simpl.
  destruct (Z.ltb_spec hidden_size 0); [lia|].
  destruct (Z.eqb_spec hidden_size 0); [lia|done].
Qed.

Lemma reset_parameters_not_dropout hidden_size :
  reset_parameters hidden_size ≠ Raise (ValueError dropout_msg).
Proof.
  unfold reset_parameters, inv_sqrt, dropout_msg.
  destruct (int_fits_float hidden_size); simpl; [|done].
  destruct (hidden_size <? 0); [rewrite !app_String; discriminate|].
  by destruct (hidden_size =? 0).
Qed.

(** ** C10 *)

(** C10. When the dropout argument is a boolean, True or False, the
    constructor raises the dropout range error, whatever the other arguments
    are, although both booleans compare within [0, 1]; dropout=False is not
    taken as dropout 0. *)
Theorem C10_boolean_dropout_rejected c mode input_size hidden_size num_layers
    bias batch_first (b : bool) bidirectional :
  dropout_in_range (NBool b) = true ∧
  RNNBase__init__ c mode input_size hidden_size num_layers bias batch_first
    (NBool b) bidirectional
  = ([], Raise (ValueError dropout_msg)).
Proof. split; reflexivity. Qed.

(** ** C6 *)

(** C6, at a concrete input: dropout=False lies within [0, 1] and yet the
    constructor raises the dropout range error, so the error is not raised
    exactly when dropout lies outside [0, 1]. *)
Lemma C6_counterexample :
  dropout_in_range (NBool false) = true ∧
  (LSTM__init__ 16 32 2 true false (NBool false) false).2
  = Raise (ValueError dropout_msg).
Proof. split; reflexivity. Qed.

(** C6, amended. The constructor raises the dropout range error exactly when
    dropout (convertible to a float) is a boolean or lies outside [0, 1].
    When dropout is a non-boolean number in (0, 1] and num_layers = 1 the
    constructor emits one warning; it then completes normally when the mode
    is recognised, input_size is positive and hidden_size is positive and
    below 2^1024 - 2^970 (the integers that convert to a float), the creation
    of the parameters being taken not to fail on positive sizes. *)
Theorem C6_dropout_range c mode input_size hidden_size num_layers bias
    batch_first dropout bidirectional :
  let r := RNNBase__init__ c mode input_size hidden_size num_layers bias
             batch_first dropout bidirectional in
  (r.2 = Raise (ValueError dropout_msg) ↔
   float dropout = Ok tt ∧
   (is_bool dropout = true ∨ dropout_in_range dropout = false)) ∧
  (float dropout = Ok tt → is_bool dropout = false →
   dropout_in_range dropout = true → gt_zero dropout = true →
   num_layers = 1 →
   r.1 = [DropoutWarning dropout 1] ∧
   (mode ∈ recognised_modes → 0 < input_size →
    0 < hidden_size < 2 ^ 1024 - 2 ^ 970 → returns r.2)).
Proof.
  intros r. subst r. unfold RNNBase__init__. split.
  - rewrite <- check_dropout_spec.
    destruct (check_dropout dropout) as [[]|e]; simpl;
      [|by split; intros [= ->]].
    split; [|done]. intros Hr. exfalso.
    destruct (gate_size_of mode hidden_size) as [g|e] eqn:Hg; simpl in Hr.
    + destruct (reset_parameters hidden_size) as [[]|e] eqn:Hreset;
        simpl in Hr; [done|].
      injection Hr as ->. by apply (reset_parameters_not_dropout hidden_size).
    + unfold gate_size_of in Hg. repeat case_decide; try done.
      injection Hg as <-. injection Hr as Hr.
      apply (dropout_msg_not_mode mode). by rewrite Hr.
  - intros Hfloat Hbool Hrange Hpos ->.
    rewrite check_dropout_Ok by done. simpl. split.
    + unfold dropout_warnings. by rewrite Hpos.
    + intros Hmode _ Hhidden.
      destruct (gate_size_of_recognised mode hidden_size Hmode) as [g ->].
      simpl. rewrite reset_parameters_Ok; [simpl; by eexists|lia|].
      unfold int_fits_float. apply Z.ltb_lt. lia.
Qed.

(** dropout=0.5 with one layer: a warning, and the module is constructed. *)
Lemma C6_dropout_range_witness :
  let r := LSTM__init__ 16 32 1 true false (NFloat (FFin (1 # 2))) false in
  r.1 = [DropoutWarning (NFloat (FFin (1 # 2))) 1] ∧ returns r.2.
Proof.
  intros r.
  destruct (C6_dropout_range ClsLSTM "LSTM" 16 32 1 true false
              (NFloat (FFin (1 # 2))) false) as [_ Hwarn].
  destruct (Hwarn eq_refl eq_refl eq_refl eq_refl eq_refl) as [Hw Hr].
  split; [exact Hw|]. apply Hr.
  - apply list_elem_of_here.
  - reflexivity.
  - split; reflexivity.
Defined.

(** dropout=-0.1, the double -3602879701896397 / 2^55, raises the dropout
    range error. *)
Example dropout_negative_rejected :
  (LSTM__init__ 16 32 1 true false
     (NFloat (FFin (-3602879701896397 # 36028797018963968))) false)
  = ([], Raise (ValueError dropout_msg)).
Proof. reflexivity. Qed.

End dropout.

(** ** The forward-argument check *)

Section forward_args.

Context (self : RNNBase) (input : Tensor) (batch_sizes : option (list Z)).

Let expected_rank : Z := match batch_sizes with Some _ => 2 | None => 3 end.

Lemma check_input_rank :
  Tensor_dim input ≠ expected_rank →
  check_input self input batch_sizes
  = Raise (rank_error expected_rank (Tensor_dim input)).
Proof.
  intros Hrank. unfold check_input. fold expected_rank.
  by rewrite bool_decide_true.
Qed.

Lemma check_input_feature (d : Z) :
  Tensor_dim input = expected_rank →
  last (Tensor_size input) = Some d → d ≠ input_size self →
  check_input self input batch_sizes
  = Raise (feature_error (input_size self) d).
Proof.
  intros Hrank Hlast Hd. unfold check_input, Tensor_size_last.
  fold expected_rank. rewrite bool_decide_false by (by intros []).
  rewrite Hlast. simpl. by rewrite bool_decide_true.
Qed.

Lemma check_input_Ok :
  check_input self input batch_sizes = Ok tt ↔
  Tensor_dim input = expected_rank ∧
  last (Tensor_size input) = Some (input_size self).
Proof.
  unfold check_input, Tensor_size_last. fold expected_rank.
  case_bool_decide as Hrank; [by split; [|intros [? _]]|].
  destruct (last (Tensor_size input)) as [d|]; simpl;
    [|by split; [|intros [_ ?]]].
  case_bool_decide as Hd.
  - split; [done|]. intros [_ [= ->]]. done.
  - subst d. done.
Qed.

Lemma check_hidden_size_spec (hx : Tensor) (expected : list Z) (what : string) :
  check_hidden_size hx expected what
  = if decide (Tensor_size hx = expected) then Ok tt
    else Raise (hidden_error what expected (Tensor_size hx)).
Proof.
  unfold check_hidden_size. case_bool_decide; case_decide; done.
Qed.

(** ** C4 *)

(** C4. The forward-argument check wants rank 2 when batch sizes are supplied
    and rank 3 otherwise, and a trailing dimension equal to input_size; each
    mismatch raises an error whose message names the expected and the actual
    value. A hidden state must have shape
    (num_layers * num_directions, batch, hidden_size); for the LSTM the hidden
    and the cell state are both checked against that one expected shape, and a
    mismatch raises an error naming the expected and the actual shape. Hence a
    hidden/cell pair of differing shapes is always rejected. *)
Theorem C4_forward_argument_checks (h c : Tensor) :
  let rank := Tensor_dim input in
  let base := RNNBase_check_forward_args self input h batch_sizes in
  let lstm := LSTM_check_forward_args self input (h, c) batch_sizes in
  (rank ≠ expected_rank →
     base = Raise (rank_error expected_rank rank) ∧
     lstm = Raise (rank_error expected_rank rank)) ∧
  (rank = expected_rank →
   ∀ d, last (Tensor_size input) = Some d → d ≠ input_size self →
     base = Raise (feature_error (input_size self) d) ∧
     lstm = Raise (feature_error (input_size self) d)) ∧
  (rank = expected_rank → last (Tensor_size input) = Some (input_size self) →
   ∀ batch, mini_batch self input batch_sizes = Ok batch →
     let expected := [num_layers self * num_directions (bidirectional self);
                      batch; hidden_size self] in
     base = (if decide (Tensor_size h = expected) then Ok tt
             else Raise (hidden_error "Expected hidden size " expected
                           (Tensor_size h))) ∧
     lstm = (if decide (Tensor_size h = expected) then
               if decide (Tensor_size c = expected) then Ok tt
               else Raise (hidden_error "Expected hidden[1] size " expected
                             (Tensor_size c))
             else Raise (hidden_error "Expected hidden[0] size " expected
                           (Tensor_size h)))) ∧
  (Tensor_size h ≠ Tensor_size c → raises lstm).
Proof.
  intros rank base lstm. subst rank base lstm.
  unfold RNNBase_check_forward_args, LSTM_check_forward_args.
  split_and!.
  - intros Hrank. by rewrite check_input_rank.
  - intros Hrank d Hlast Hd. by rewrite (check_input_feature d).
  - intros Hrank Hlast batch Hbatch.
    rewrite (proj2 check_input_Ok) by done.
    unfold get_expected_hidden_size. rewrite Hbatch. simpl.
    rewrite !check_hidden_size_spec. split; [done|].
    by repeat case_decide.
  - intros Hdiff.
    destruct (check_input self input batch_sizes) as [[]|e]; [|by eexists].
    simpl.
    destruct (get_expected_hidden_size self input batch_sizes) as [expected|e];
      [|by eexists].
    simpl. rewrite !check_hidden_size_spec.
    destruct (decide (Tensor_size h = expected)) as [Hh|]; [|by eexists].
    simpl. destruct (decide (Tensor_size c = expected)) as [Hc|]; [|by eexists].
    congruence.
Qed.

End forward_args.

(** An LSTM with three layers, given a cell state of another shape than the
    hidden state. *)
Lemma C4_forward_argument_checks_witness :
  ∃ m, (LSTM__init__ 16 32 3 true false (NFloat (FFin 0)) false).2 = Ok m ∧
    LSTM_check_forward_args m
      {| Tensor_size := [10; 2; 16]; Tensor_layer_name := "data" |}
      ({| Tensor_size := [3; 2; 32]; Tensor_layer_name := "h0" |},
       {| Tensor_size := [3; 2; 31]; Tensor_layer_name := "c0" |}) None
    = Raise (RuntimeError "Expected hidden[1] size (3, 2, 32), got [3, 2, 31]").
Proof.
  eexists. split; [reflexivity|].
  match goal with
  | |- LSTM_check_forward_args ?m ?i (?h, ?c) ?b = _ =>
      destruct (C4_forward_argument_checks m i b h c) as (_ & _ & Hhidden & _)
  end.
  exact (proj2 (Hhidden eq_refl eq_refl 2 eq_refl)).
Defined.

(** ** Lowering to layer dictionaries *)

Section dicts.

Lemma dict_set_fresh (k : string) (v : value) (d : dict) :
  k ∉ dict_keys d → dict_set k v d = (d ++ [(k, v)])%list.
Proof.
  unfold dict_keys. induction d as [|[k' v'] d IH]; [done|].
  simpl. rewrite not_elem_of_cons. intros [Hne Hnot].
  rewrite decide_False by done. by rewrite IH.
Qed.

Lemma dict_get_app_fresh (k : string) (d d' : dict) :
  k ∉ dict_keys d → dict_get k (d ++ d')%list = dict_get k d'.
Proof.
  unfold dict_keys. induction d as [|[k' v'] d IH]; [done|].
  simpl. rewrite not_elem_of_cons. intros [Hne Hnot].
  rewrite decide_False by done. by apply IH.
Qed.

(** A comprehension over distinct keys lists its entries in order. *)
Lemma dict_comprehension_distinct {A} (key : A → string) (val : A → value)
    (l : list A) :
  NoDup (key <$> l) →
  dict_comprehension key val l = (λ i, (key i, val i)) <$> l.
Proof.
  unfold dict_comprehension.
  induction l as [|x l IH] using rev_ind; [done|].
  rewrite fmap_app, NoDup_app. intros (Hl & Hx & _).
  rewrite foldl_snoc, IH, fmap_app by done. simpl.
  apply dict_set_fresh. unfold dict_keys.
  rewrite <- list_fmap_compose. intros Hin. apply (Hx (key x)); [done|].
  apply list_elem_of_here.
Qed.

Lemma lstm_layer_key_inj (i j : nat) : lstm_layer_key i = lstm_layer_key j → i = j.
Proof.
  unfold lstm_layer_key. rewrite !app_String, !app_empty_l.
  intros [= Heq]. by apply str_inj.
Qed.

Lemma lstm_layer_keys_NoDup (l : list nat) :
  NoDup l → NoDup (lstm_layer_key <$> l).
Proof. apply NoDup_fmap_2. intros i j. apply lstm_layer_key_inj. Qed.

Lemma output_not_layer_key (l : list nat) : "output" ∉ lstm_layer_key <$> l.
Proof.
  rewrite list_elem_of_fmap. intros (i & Heq & _). revert Heq.
  unfold lstm_layer_key. by rewrite app_String.
Qed.

End dicts.

Section lowering.

Context (self : RNNBase) (input : Tensor).

Lemma LSTM_bidirectional_rejected (hx : option Tensor) :
  bidirectional self = true →
  LSTM_create_returnn_layer_dict self input hx = Raise AssertionError.
Proof. unfold LSTM_create_returnn_layer_dict. by intros ->. Qed.

(** The node of a single-layer LSTM: no [n_out] entry is written. *)
Lemma LSTM_single_layer_node (hx : option Tensor) :
  bidirectional self = false → num_layers self ≤ 1 →
  LSTM_create_returnn_layer_dict self input hx
  = Ok ([("class", VStr "rec"); ("unit", VStr "nativelstm2");
         ("from", VStr (_get_input_layer_name input))] ++
        match hx with
        | Some h => [("initial_state", VStr (_get_input_layer_name h))]
        | None => []
        end)%list.
Proof.
  unfold LSTM_create_returnn_layer_dict. intros -> Hn. simpl.
  destruct (Z.ltb_spec 1 (num_layers self)); [lia|]. by destruct hx.
Qed.

Lemma RNNBase_single_layer_node (hx : option Tensor) :
  num_layers self = 1 →
  RNNBase_create_returnn_layer_dict self input hx
  = Ok [("class", VStr "rec"); ("unit", VStr (mode self));
        ("from", VStr (_get_input_layer_name input));
        ("n_out", VInt (hidden_size self))].
Proof. unfold RNNBase_create_returnn_layer_dict. by intros ->. Qed.

(** ** C2 *)

(** C2. A unidirectional LSTM with num_layers > 1, lowered without an initial
    state, gives one node of class "subnetwork" whose network holds, in this
    order, the recurrent nodes layer0 .. layer{num_layers-1}, layer0 reading
    "data" and layer i reading layer{i-1}, and then the node "output" of class
    "copy" reading the last layer; all these names are distinct. With an
    initial state the lowering raises an error. *)
Theorem C2_multi_layer_subnetwork :
  cls self = ClsLSTM → bidirectional self = false → 1 < num_layers self →
  let n := Z.to_nat (num_layers self) in
  let sub := ((subnetwork_layer <$> seq 0 n) ++ [subnetwork_output n])%list in
  create_returnn_layer_dict self input None
  = Ok [("class", VStr "subnetwork");
        ("from", VStr (_get_input_layer_name input));
        ("subnetwork", VDict sub)] ∧
  NoDup (dict_keys sub) ∧
  (∀ i, (i < n)%nat → dict_get (subnetwork_layer i).1 sub
                      = Some (subnetwork_layer i).2) ∧
  dict_get "output" sub = Some (subnetwork_output n).2 ∧
  (∀ hx, create_returnn_layer_dict self input (Some hx) = Raise AssertionError).
Proof.
  intros Hcls Hbi Hn n sub.
  assert (dict_keys (subnetwork_layer <$> seq 0 n)
          = lstm_layer_key <$> seq 0 n) as Hkeys.
  { unfold dict_keys. by rewrite <- list_fmap_compose. }
  unfold create_returnn_layer_dict, LSTM_create_returnn_layer_dict.
  rewrite Hcls, Hbi. simpl.
  destruct (Z.ltb_spec 1 (num_layers self)); [|lia]. split_and!.
  - simpl. unfold range. fold n.
    rewrite dict_comprehension_distinct
      by apply lstm_layer_keys_NoDup, NoDup_seq.
    unfold dict_kwargs. rewrite bool_decide_true.
    + simpl. unfold lstm_output_node.
      replace (num_layers self - 1) with (Z.of_nat (n - 1)) by lia.
      by rewrite strZ_of_nat.
    + repeat constructor. unfold dict_keys. rewrite <- list_fmap_compose.
      apply output_not_layer_key.
  - unfold sub, dict_keys. rewrite fmap_app, <- list_fmap_compose.
    apply NoDup_app. split_and!.
    + apply lstm_layer_keys_NoDup, NoDup_seq.
    + intros k Hk Hout. simpl in Hout. apply list_elem_of_singleton in Hout.
      subst k. by apply output_not_layer_key in Hk.
    + apply NoDup_singleton.
  - intros i Hi. subst sub.
    assert (seq 0 n = seq 0 i ++ i :: seq (S i) (n - S i))%list as ->.
    { replace n with (i + S (n - S i))%nat at 1 by lia.
      by rewrite seq_app. }
    rewrite fmap_app, <- app_assoc, dict_get_app_fresh.
    + simpl. by rewrite decide_True.
    + unfold dict_keys. rewrite <- list_fmap_compose.
      intros (j & Hj%lstm_layer_key_inj & Hin%elem_of_seq)%list_elem_of_fmap.
      lia.
  - subst sub. rewrite dict_get_app_fresh; [done|].
    rewrite Hkeys. apply output_not_layer_key.
  - by intros hx.
Qed.

End lowering.

(** An LSTM of three layers built by the constructor. *)
Lemma C2_multi_layer_subnetwork_witness :
  ∃ m, (LSTM__init__ 16 32 3 true false (NFloat (FFin 0)) false).2 = Ok m ∧
    create_returnn_layer_dict m
      {| Tensor_size := [10; 2; 16]; Tensor_layer_name := "data" |} None
    = Ok [("class", VStr "subnetwork"); ("from", VStr "data");
          ("subnetwork", VDict
             [("layer0", VDict [("class", VStr "rec");
                                ("unit", VStr "nativelstm2");
                                ("from", VStr "data")]);
              ("layer1", VDict [("class", VStr "rec");
                                ("unit", VStr "nativelstm2");
                                ("from", VStr "layer0")]);
              ("layer2", VDict [("class", VStr "rec");
                                ("unit", VStr "nativelstm2");
                                ("from", VStr "layer1")]);
              ("output", VDict [("class", VStr "copy");
                                ("from", VStr "layer2")])])].
Proof.
  eexists. split; [reflexivity|].
  match goal with
  | |- create_returnn_layer_dict ?m ?i None = _ =>
      exact (proj1 (C2_multi_layer_subnetwork m i eq_refl eq_refl eq_refl))
  end.
Defined.

(** ** C1 *)

(** C1, at LSTM(input_size=16, hidden_size=32, num_layers=1): the lowering
    gives one node of class "rec" with unit "nativelstm2" reading the input,
    and this node has no n_out entry, whereas the node the base class writes
    for the same configuration carries n_out = 32. *)
Theorem C1_lstm_node_lacks_n_out :
  let input := {| Tensor_size := [10; 2; 16]; Tensor_layer_name := "data" |} in
  ∃ m, LSTM__init__ 16 32 1 true false (NFloat (FFin 0)) false = ([], Ok m) ∧
    create_returnn_layer_dict m input None
    = Ok [("class", VStr "rec"); ("unit", VStr "nativelstm2");
          ("from", VStr "data")] ∧
    (∀ d, create_returnn_layer_dict m input None = Ok d →
          dict_get "n_out" d = None) ∧
    RNNBase_create_returnn_layer_dict m input None
    = Ok [("class", VStr "rec"); ("unit", VStr "LSTM");
          ("from", VStr "data"); ("n_out", VInt 32)].
Proof.
  intros input. eexists. split; [reflexivity|].
  split; [reflexivity|]. split; [|reflexivity].
  by intros d [= <-].
Qed.

(** ** C3 *)

(** C3, at RNNBase('GRU', 16, 32, bidirectional=True): construction succeeds,
    and the lowering of the base class returns a node of class "rec" with
    n_out = 32 instead of raising; the LSTM lowering raises for the same
    arguments. *)
Theorem C3_base_class_lowers_bidirectional :
  let input := {| Tensor_size := [10; 2; 16]; Tensor_layer_name := "data" |} in
  ∃ m, RNNBase__init__ ClsRNNBase "GRU" 16 32 1 true false (NFloat (FFin 0)) true
       = ([], Ok m) ∧
    bidirectional m = true ∧
    create_returnn_layer_dict m input None
    = Ok [("class", VStr "rec"); ("unit", VStr "GRU");
          ("from", VStr "data"); ("n_out", VInt 32)] ∧
    LSTM_create_returnn_layer_dict m input None = Raise AssertionError.
Proof.
  intros input. eexists. split; [reflexivity|]. by split_and!.
Qed.

(** Construction does not look at [bidirectional] to decide whether to raise. *)
Lemma construction_ignores_bidirectional c mode input_size hidden_size
    num_layers bias batch_first dropout :
  raises (RNNBase__init__ c mode input_size hidden_size num_layers bias
            batch_first dropout true).2
  ↔ raises (RNNBase__init__ c mode input_size hidden_size num_layers bias
              batch_first dropout false).2.
Proof.
  unfold RNNBase__init__.
  destruct (check_dropout dropout) as [[]|e]; [|done]. simpl.
  destruct (gate_size_of mode hidden_size) as [g|e]; [|done]. simpl.
  destruct (reset_parameters hidden_size) as [[]|e]; [|done]. simpl.
  unfold raises. split; intros [e [=]].
Qed.

(** ** The verification orchestrator *)


Section orchestrator.

Context {ndarray : Type} `{!Numpy ndarray}.
Context {Naming LiveNetwork TFNetwork Checkpoint : Type}.

Abbreviation Ext := (@Externals ndarray Naming LiveNetwork TFNetwork Checkpoint).
Abbreviation Conv := (@Converter ndarray Naming).

(** [torch_axes] reads the axis mapping at 0, 1, .., ndim-1. *)
Lemma torch_axes_spec (m : gmap nat Z) (ndim : Z) (axes : list Z) :
  torch_axes m ndim = Ok axes →
  length axes = Z.to_nat ndim ∧
  ∀ i, (i < Z.to_nat ndim)%nat → axes !! i = m !! i.
Proof.
  unfold torch_axes, range. generalize (Z.to_nat ndim) as n. intros n.
  assert (∀ s axes,
    foldr (λ i acc, match m !! i with
                    | Some ax => rest ← acc; Ok (ax :: rest)
                    | None => Raise KeyError
                    end) (Ok []) (seq s n) = Ok axes →
    length axes = n ∧ ∀ i, (i < n)%nat → axes !! i = m !! (s + i)%nat) as Hgen.
  { induction n as [|n IH]; intros s axes'; simpl.
    - intros [= <-]. split; [done|]. intros i ?. lia.
    - destruct (m !! s) as [ax|] eqn:Hs; [|done].
      destruct (foldr _ _ (seq (S s) n)) as [rest|e] eqn:Hrest; [|done].
      simpl. intros [= <-]. destruct (IH _ _ Hrest) as [Hlen Hlook].
      split; [simpl; lia|]. intros [|i] Hi; simpl.
      + by rewrite Nat.add_0_r.
      + rewrite Hlook by lia. f_equal. lia. }
  intros Hfold. apply Hgen in Hfold as [? Hlook]. split; [done|].
  intros i Hi. by rewrite Hlook.
Qed.

(** What Stage C does once the graph has been traced and run. *)
Lemma stage_C_after_run (ext : Ext) (self : Conv) (files : gmap string Checkpoint)
    (tr : ReturnnTrace) (y_ : ndarray) (y_size : list Z) :
  model_returnn ext (_torch_namespace self) (_returnn_in_data_dict self)
    (_inputs_np self) = Ok tr →
  session_run ext (trace_network tr) (_inputs_np self) (seq_lens self)
    = Ok (y_, y_size) →
  _run_torch_returnn_drop_in ext self files
  = (let self1 := set_returnn_outputs (trace_net_dict tr) y_ self in
     axes ← torch_axes (trace_axis_to_torch_axis tr) (np_ndim y_);
     y_torch ← np_transpose y_ axes;
     _ ← match _out_ref_np self with
         | Some out_ref_np =>
             np_assert_allclose out_ref_np y_torch (Some 0%Q) (Some atol_1e_4)
         | None => Ok tt
         end;
     if path_given (export_tf_checkpoint_save_path self)
        || verify_returnn_standalone_model self
     then
       let path := if path_given (export_tf_checkpoint_save_path self)
                   then default "" (export_tf_checkpoint_save_path self)
                   else mkdtemp ext "tmp-returnn-tf-checkpoint" +:+ "/model" in
       ckpt ← save_params_to_file ext (trace_network tr);
       Ok (set_tf_checkpoint_save_path (Some path) self1, <[path := ckpt]> files)
     else Ok (self1, files)).
Proof.
  intros Htr Hrun. unfold _run_torch_returnn_drop_in.
  rewrite Htr. simpl. rewrite Hrun. reflexivity.
Qed.

Lemma stage_C_trace_fails (ext : Ext) (self : Conv)
    (files : gmap string Checkpoint) (e : exn) :
  model_returnn ext (_torch_namespace self) (_returnn_in_data_dict self)
    (_inputs_np self) = Raise e →
  _run_torch_returnn_drop_in ext self files = Raise e.
Proof. intros Htr. unfold _run_torch_returnn_drop_in. by rewrite Htr. Qed.

Lemma stage_C_run_fails (ext : Ext) (self : Conv)
    (files : gmap string Checkpoint) (tr : ReturnnTrace) (e : exn) :
  model_returnn ext (_torch_namespace self) (_returnn_in_data_dict self)
    (_inputs_np self) = Ok tr →
  session_run ext (trace_network tr) (_inputs_np self) (seq_lens self)
    = Raise e →
  _run_torch_returnn_drop_in ext self files = Raise e.
Proof.
  intros Htr Hrun. unfold _run_torch_returnn_drop_in.
  rewrite Htr. simpl. by rewrite Hrun.
Qed.

Lemma stage_C_success (ext : Ext) (self self' : Conv)
    (files files' : gmap string Checkpoint)
    (tr : ReturnnTrace) (y_ : ndarray) (y_size : list Z) :
  model_returnn ext (_torch_namespace self) (_returnn_in_data_dict self)
    (_inputs_np self) = Ok tr →
  session_run ext (trace_network tr) (_inputs_np self) (seq_lens self)
    = Ok (y_, y_size) →
  _run_torch_returnn_drop_in ext self files = Ok (self', files') →
  ∃ axes y_torch,
    torch_axes (trace_axis_to_torch_axis tr) (np_ndim y_) = Ok axes ∧
    np_transpose y_ axes = Ok y_torch ∧
    (∀ ref, _out_ref_np self = Some ref →
       np_assert_allclose ref y_torch (Some 0%Q) (Some atol_1e_4) = Ok tt) ∧
    _out_returnn_np self' = Some y_ ∧
    _returnn_net_dict self' = Some (trace_net_dict tr) ∧
    _out_ref_np self' = _out_ref_np self ∧
    _inputs_np self' = _inputs_np self ∧
    (verify_returnn_standalone_model self = true →
       ∃ path ckpt, _tf_checkpoint_save_path self' = Some path ∧
         save_params_to_file ext (trace_network tr) = Ok ckpt ∧
         files' !! path = Some ckpt).
Proof.
  intros Htr Hrun. rewrite (stage_C_after_run _ _ _ _ _ _ Htr Hrun). simpl.
  destruct (torch_axes _ _) as [axes|e] eqn:Haxes; simpl; [|done].
  destruct (np_transpose y_ axes) as [y_torch|e] eqn:Htrans; simpl; [|done].
  intros Hrest. exists axes, y_torch. split; [done|]. split; [done|].
  assert (∀ ref, _out_ref_np self = Some ref →
    np_assert_allclose ref y_torch (Some 0%Q) (Some atol_1e_4) = Ok tt) as Hcmp.
  { intros ref Href. rewrite Href in Hrest.
    by destruct (np_assert_allclose ref y_torch _ _) as [[]|e]. }
  split; [done|].
  destruct (match _out_ref_np self with Some _ => _ | None => _ end)
    as [[]|e]; simpl in Hrest; [|done].
  destruct (path_given (export_tf_checkpoint_save_path self)
            || verify_returnn_standalone_model self) eqn:Hsave.
  - destruct (save_params_to_file ext (trace_network tr)) as [ckpt|e];
      simpl in Hrest; [|done].
    injection Hrest as <- <-. simpl. split_and!; try done.
    intros _. eexists _, ckpt. split_and!; [done..|].
    apply lookup_insert_eq.
  - injection Hrest as <- <-. simpl. split_and!; try done.
    intros Hv. rewrite Hv, orb_true_r in Hsave. done.
Qed.

End orchestrator.

Section orchestrator_claims.

Context {ndarray : Type} `{!Numpy ndarray}.
Context {Naming LiveNetwork TFNetwork Checkpoint : Type}.
Context (ext : @Externals ndarray Naming LiveNetwork TFNetwork Checkpoint).
Context (self : @Converter ndarray Naming).

(** ** C7 *)

(** C7, amended. When Stage A has run, Stage B passes exactly when its output
    has the shape of Stage A's output and numpy's [assert_allclose], called
    without tolerances (so with numpy's defaults, relative 1e-7 and absolute
    0), accepts the pair, and aborts otherwise; the reference stays Stage A's
    output. When Stage A was skipped, Stage B's output is installed as the
    reference, and it is what Stage C then compares against. *)
Theorem C7_stage_B_against_reference (out : ndarray) (naming : Naming) :
  model_traced ext (verify_individual_model_io self) (_inputs_np self)
    = Ok (out, naming) →
  let traced := set_torch_namespace (Some naming) self in
  match _out_ref_np self with
  | Some ref =>
      (np_shape ref = np_shape out →
       np_assert_allclose ref out None None = Ok tt →
       _run_traced_orig_torch ext self = Ok traced) ∧
      (np_shape ref ≠ np_shape out →
       _run_traced_orig_torch ext self = Raise AssertionError) ∧
      (np_shape ref = np_shape out →
       ∀ e, np_assert_allclose ref out None None = Raise e →
            _run_traced_orig_torch ext self = Raise e) ∧
      _out_ref_np traced = Some ref
  | None =>
      let self_B := set_out_ref_np (Some out) traced in
      _run_traced_orig_torch ext self = Ok self_B ∧
      _out_ref_np self_B = Some out ∧
      ∀ files self_C files_C,
        _run_torch_returnn_drop_in ext self_B files = Ok (self_C, files_C) →
        _out_ref_np self_C = Some out ∧
        ∃ tr y_ y_size axes y_torch,
          session_run ext (trace_network tr) (_inputs_np self) (seq_lens self)
            = Ok (y_, y_size) ∧
          torch_axes (trace_axis_to_torch_axis tr) (np_ndim y_) = Ok axes ∧
          np_transpose y_ axes = Ok y_torch ∧
          np_assert_allclose out y_torch (Some 0%Q) (Some atol_1e_4) = Ok tt
  end.
Proof.
  intros Htraced traced. unfold _run_traced_orig_torch. rewrite Htraced. simpl.
  destruct (_out_ref_np self) as [ref|] eqn:Href.
  - split_and!; [| | |done].
    + intros Hshape Hclose. rewrite bool_decide_true by done. simpl.
      by rewrite Hclose.
    + intros Hshape. by rewrite bool_decide_false.
    + intros Hshape e Hclose. rewrite bool_decide_true by done. simpl.
      by rewrite Hclose.
  - split_and!; [done..|]. intros files self_C files_C HC.
    set (self_B := set_out_ref_np (Some out) traced) in *.
    destruct (model_returnn ext (_torch_namespace self_B)
                (_returnn_in_data_dict self_B) (_inputs_np self_B))
      as [tr|e] eqn:Htr;
      [|by rewrite (stage_C_trace_fails _ _ _ _ Htr) in HC].
    destruct (session_run ext (trace_network tr) (_inputs_np self_B)
                (seq_lens self_B))
      as [[y_ y_size]|e] eqn:Hrun;
      [|by rewrite (stage_C_run_fails _ _ _ _ _ Htr Hrun) in HC].
    destruct (stage_C_success _ _ _ _ _ _ _ _ Htr Hrun HC)
      as (axes & y_torch & Haxes & Htrans & Hcmp & _ & _ & Hkeep & _).
    split; [by rewrite Hkeep|].
    exists tr, y_, y_size, axes, y_torch. split_and!; try done.
    by apply Hcmp.
Qed.

(** ** C8 *)

(** C8. In Stage C, with a reference present, the array the backend returned
    is transposed by the axes the axis mapping gives for 0 .. ndim-1 and the
    transposed array is compared with the reference with absolute tolerance
    1e-4 and relative tolerance 0: Stage C succeeds only if this comparison
    passed, and an error of the comparison aborts Stage C with that error. *)
Theorem C8_stage_C_comparison (files : gmap string Checkpoint)
    (tr : ReturnnTrace) (y_ : ndarray) (y_size : list Z) (ref : ndarray) :
  model_returnn ext (_torch_namespace self) (_returnn_in_data_dict self)
    (_inputs_np self) = Ok tr →
  session_run ext (trace_network tr) (_inputs_np self) (seq_lens self)
    = Ok (y_, y_size) →
  _out_ref_np self = Some ref →
  (∀ self' files',
     _run_torch_returnn_drop_in ext self files = Ok (self', files') →
     ∃ axes y_torch,
       length axes = Z.to_nat (np_ndim y_) ∧
       (∀ i, (i < Z.to_nat (np_ndim y_))%nat →
             axes !! i = trace_axis_to_torch_axis tr !! i) ∧
       np_transpose y_ axes = Ok y_torch ∧
       np_assert_allclose ref y_torch (Some 0%Q) (Some (1 # 10000)%Q) = Ok tt) ∧
  (∀ axes y_torch e,
     torch_axes (trace_axis_to_torch_axis tr) (np_ndim y_) = Ok axes →
     np_transpose y_ axes = Ok y_torch →
     np_assert_allclose ref y_torch (Some 0%Q) (Some (1 # 10000)%Q) = Raise e →
     _run_torch_returnn_drop_in ext self files = Raise e).
Proof.
  intros Htr Hrun Href. split.
  - intros self' files' HC.
    destruct (stage_C_success _ _ _ _ _ _ _ _ Htr Hrun HC)
      as (axes & y_torch & Haxes & Htrans & Hcmp & _).
    apply torch_axes_spec in Haxes as [Hlen Hlook].
    exists axes, y_torch. split_and!; try done. by apply Hcmp.
  - intros axes y_torch e Haxes Htrans Hcmp.
    rewrite (stage_C_after_run _ _ _ _ _ _ Htr Hrun). simpl.
    rewrite Haxes. simpl. rewrite Htrans. simpl. rewrite Href.
    unfold atol_1e_4. by rewrite Hcmp.
Qed.

(** ** C9 *)

(** C9. Stage D builds the network from the stored net dictionary, loads the
    checkpoint stored under the saved path, runs it on the same input, and
    compares Stage C's stored output with the result with absolute tolerance
    1e-4 and relative tolerance 0: it succeeds only if that comparison passed
    and an error of the comparison aborts it. Its outcome depends on nothing
    but the net dictionary, the checkpoint, the input and Stage C's output:
    not on the reference, and not on the collaborators of Stages A to C. *)
Theorem C9_stage_D_replay (files : gmap string Checkpoint) :
  let config :=
    [("extern_data", VDict [("data", VDict (_returnn_in_data_dict self))]);
     ("debug_print_layer_output_template", VInt 1)] in
  let checkpoint := path ← _tf_checkpoint_save_path self; files !! path in
  (_run_returnn_standalone ext self files = Ok tt →
   ∃ net_dict net0 net y_ y_size out_C,
     _returnn_net_dict self = Some net_dict ∧
     construct_from_dict ext config net_dict = Ok net0 ∧
     load_params_from_file ext checkpoint net0 = Ok net ∧
     network_run ext net (_inputs_np self) (seq_lens self) = Ok (y_, y_size) ∧
     _out_returnn_np self = Some out_C ∧
     np_assert_allclose out_C y_ (Some 0%Q) (Some (1 # 10000)%Q) = Ok tt) ∧
  (∀ net_dict net0 net y_ y_size out_C e,
     _returnn_net_dict self = Some net_dict →
     construct_from_dict ext config net_dict = Ok net0 →
     load_params_from_file ext checkpoint net0 = Ok net →
     network_run ext net (_inputs_np self) (seq_lens self) = Ok (y_, y_size) →
     _out_returnn_np self = Some out_C →
     np_assert_allclose out_C y_ (Some 0%Q) (Some (1 # 10000)%Q) = Raise e →
     _run_returnn_standalone ext self files = Raise e) ∧
  (∀ (ext' : @Externals ndarray Naming LiveNetwork TFNetwork Checkpoint)
     (self' : @Converter ndarray Naming) (files' : gmap string Checkpoint),
     construct_from_dict ext' = construct_from_dict ext →
     load_params_from_file ext' = load_params_from_file ext →
     network_run ext' = network_run ext →
     _returnn_net_dict self' = _returnn_net_dict self →
     (path ← _tf_checkpoint_save_path self'; files' !! path) = checkpoint →
     _inputs_np self' = _inputs_np self →
     _in_n_batch self' = _in_n_batch self →
     _in_n_time self' = _in_n_time self →
     _returnn_in_data_dict self' = _returnn_in_data_dict self →
     _out_returnn_np self' = _out_returnn_np self →
     _run_returnn_standalone ext' self' files'
     = _run_returnn_standalone ext self files).
Proof.
  intros config checkpoint. unfold _run_returnn_standalone. split_and!.
  - destruct (_returnn_net_dict self) as [net_dict|]; simpl; [|done].
    fold config.
    destruct (construct_from_dict ext config net_dict) as [net0|e] eqn:H0;
      simpl; [|done].
    fold checkpoint.
    destruct (load_params_from_file ext checkpoint net0) as [net|e] eqn:H1;
      simpl; [|done].
    destruct (network_run ext net (_inputs_np self) (seq_lens self))
      as [[y_ y_size]|e] eqn:H2; simpl; [|done].
    destruct (_out_returnn_np self) as [out_C|]; simpl; [|done].
    intros Hcmp. by exists net_dict, net0, net, y_, y_size, out_C.
  - intros net_dict net0 net y_ y_size out_C e -> H0 H1 H2 -> Hcmp. simpl.
    fold config. rewrite H0. simpl. fold checkpoint. rewrite H1. simpl.
    rewrite H2. simpl. done.
  - intros ext' self' files' -> -> -> -> Hck -> Hb Ht -> ->.
    unfold seq_lens. by rewrite Hck, Hb, Ht.
Qed.

End orchestrator_claims.

(** ** The claims on a concrete run *)

Section concrete_run.

Import QArray.

Let ext_exact := demo.externals demo.out_torch.
Let ext_near := demo.externals demo.out_traced_near.

(** C7, at a concrete run: Stage A returns 1.0 in the first entry, Stage B
    returns the next float32 below it; the shapes agree and the default
    relative tolerance 1e-7 accepts the pair, so Stage B passes although the
    two outputs are not equal. *)
Lemma C7_counterexample :
  ∃ c0 c1 c2,
    demo_converter true = Ok c0 ∧
    _run_reference ext_near c0 = Ok c1 ∧
    _out_ref_np c1 = Some demo.out_torch ∧
    model_traced ext_near (verify_individual_model_io c1) (_inputs_np c1)
      = Ok (demo.out_traced_near, tt) ∧
    _run_traced_orig_torch ext_near c1 = Ok c2 ∧
    demo.out_torch ≠ demo.out_traced_near ∧
    ¬ (1 == 16777215 # 16777216)%Q.
Proof.
  eexists _, _, _. split_and!; try reflexivity.
  - intros [=].
  - intros [=].
Qed.

(** Stage A skipped: the output of Stage B becomes the reference. *)
Lemma C7_stage_B_against_reference_witness :
  ∃ c0 c1,
    demo_converter false = Ok c0 ∧
    _run_traced_orig_torch ext_exact c0 = Ok c1 ∧
    _out_ref_np c1 = Some demo.out_torch.
Proof.
  eexists _, _. split; [reflexivity|].
  match goal with
  | |- _run_traced_orig_torch ?e ?c = _ ∧ _ =>
      destruct (C7_stage_B_against_reference e c demo.out_torch tt eq_refl)
        as (Hrun & Href & _)
  end.
  split; [exact Hrun|exact Href].
Defined.

(** Stage C passes on the demo, and the array it compared is the backend's
    output with its last two axes exchanged. *)
Lemma C8_stage_C_comparison_witness :
  ∃ c2, demo_before_C = Ok c2 ∧
    ∃ c3 files,
      _run_torch_returnn_drop_in ext_exact c2 ∅ = Ok (c3, files) ∧
      ∃ y_torch,
        np_transpose demo.out_returnn [0; 2; 1] = Ok y_torch ∧
        np_assert_allclose demo.out_torch y_torch (Some 0%Q)
          (Some (1 # 10000)%Q) = Ok tt.
Proof.
  eexists. split; [reflexivity|].
  match goal with
  | |- ∃ c3 files, _run_torch_returnn_drop_in ?e ?c ∅ = _ ∧ _ =>
      destruct (C8_stage_C_comparison e c ∅
                  {| trace_net_dict := demo.net_dict;
                     trace_axis_to_torch_axis := demo.axis_map;
                     trace_network := tt |}
                  demo.out_returnn [3] demo.out_torch
                  eq_refl eq_refl eq_refl) as [Hok _]
  end.
  eexists _, _. split; [reflexivity|].
  destruct (Hok _ _ eq_refl) as (axes & y_torch & Hlen & Hlook & Htr & Hcmp).
  exists y_torch. split; [|exact Hcmp].
  destruct axes as [|a0 [|a1 [|a2 [|]]]]; try discriminate Hlen.
  pose proof (Hlook 0%nat ltac:(vm_compute; lia)) as H0.
  pose proof (Hlook 1%nat ltac:(vm_compute; lia)) as H1.
  pose proof (Hlook 2%nat ltac:(vm_compute; lia)) as H2.
  vm_compute in H0, H1, H2.
  injection H0 as ->. injection H1 as ->. injection H2 as ->.
  exact Htr.
Defined.

(** Stage D passes on the demo, having compared Stage C's output. *)
Lemma C9_stage_D_replay_witness :
  ∃ c3 files,
    demo_before_D = Ok (c3, files) ∧
    _run_returnn_standalone ext_exact c3 files = Ok tt ∧
    ∃ y_, _out_returnn_np c3 = Some demo.out_returnn ∧
      np_assert_allclose demo.out_returnn y_ (Some 0%Q) (Some (1 # 10000)%Q)
        = Ok tt.
Proof.
  eexists _, _. split; [reflexivity|]. split; [reflexivity|].
  match goal with
  | |- ∃ y_, _out_returnn_np ?c = _ ∧ _ =>
      destruct (C9_stage_D_replay ext_exact c
                  {["/tmp/tmp-returnn-tf-checkpoint/model" := tt]})
        as (Hok & _)
  end.
  destruct (Hok eq_refl)
    as (net_dict & net0 & net & y_ & y_size & out_C & _ & _ & _ & _ & HC & Hcmp).
  injection HC as <-. exists y_. split; [reflexivity|exact Hcmp].
Defined.

(** The whole pipeline on the demo. *)
Example demo_run_passes :
  ∃ c0 c files, demo_converter true = Ok c0 ∧ run ext_exact c0 ∅ = Ok (c, files) ∧
    _tf_checkpoint_save_path c = Some "/tmp/tmp-returnn-tf-checkpoint/model" ∧
    files !! "/tmp/tmp-returnn-tf-checkpoint/model" = Some tt.
Proof. eexists _, _, _. by split_and!. Qed.

End concrete_run.

(** A two-layer LSTM: the input weight of layer 1 has shape (128, 32). *)
Lemma C5_parameter_sets_witness :
  ∃ m, (LSTM__init__ 16 32 2 true false (NFloat (FFin 0)) false).2 = Ok m ∧
    parameters m !! "weight_ih_l1" = Some {| param_shape := [128; 32] |}.
Proof.
  eexists. split; [reflexivity|].
  destruct (C5_parameter_sets ClsLSTM "LSTM" 16 32 2 true false
              (NFloat (FFin 0)) false) as [_ Hm].
  destruct (Hm _ eq_refl) as (k & Hk & Hlayers & _).
  assert (k = 4) as ->.
  { destruct Hk as [[_ ->]|[[[=] _]|[[[=] _]|[[=] _]]]]. reflexivity. }
  exact (proj1 (Hlayers 1%nat 0%nat eq_refl eq_refl)).
Defined.

(** * Further properties of the recurrent module *)

Section construction_outcome.

Context (c : rnn_class) (mode : string) (input_size hidden_size num_layers : Z)
  (bias batch_first : bool) (dropout : number) (bidirectional : bool).

Let r := RNNBase__init__ c mode input_size hidden_size num_layers bias
           batch_first dropout bidirectional.

Lemma check_dropout_Ok_iff :
  check_dropout dropout = Ok tt ↔
  float dropout = Ok tt ∧ is_bool dropout = false ∧
  dropout_in_range dropout = true.
Proof.
  split; [|by intros (? & ? & ?); apply check_dropout_Ok].
  unfold check_dropout, dropout_in_range, is_Number.
  destruct (float dropout) as [[]|e]; simpl; [|done].
  by destruct (zero_le dropout && le_one dropout), (is_bool dropout).
Qed.

Lemma reset_parameters_Ok_iff :
  reset_parameters hidden_size = Ok tt ↔
  0 < hidden_size ∧ int_fits_float hidden_size = true.
Proof.
  split; [|by intros [? ?]; apply reset_parameters_Ok].
  unfold reset_parameters, inv_sqrt.
  destruct (int_fits_float hidden_size); simpl; [|done].
  destruct (Z.ltb_spec hidden_size 0); [done|].
  destruct (Z.eqb_spec hidden_size 0); [done|]. intros _. split; [lia|done].
Qed.

Lemma gate_size_of_returns_iff :
  returns (gate_size_of mode hidden_size) ↔ mode ∈ recognised_modes.
Proof.
  split; [|apply gate_size_of_recognised].
  intros [g Hg]. destruct (decide (mode ∈ recognised_modes)) as [|Hnot]; [done|].
  by rewrite gate_size_of_unrecognised in Hg.
Qed.

(** When the constructor of the model returns. *)
Lemma init_returns_iff :
  returns r.2 ↔
  float dropout = Ok tt ∧ is_bool dropout = false ∧
  dropout_in_range dropout = true ∧
  mode ∈ recognised_modes ∧ 0 < hidden_size ∧
  int_fits_float hidden_size = true.
Proof.
  rewrite <- gate_size_of_returns_iff, <- reset_parameters_Ok_iff.
  transitivity (check_dropout dropout = Ok tt ∧
                returns (gate_size_of mode hidden_size) ∧
                reset_parameters hidden_size = Ok tt);
    [|rewrite check_dropout_Ok_iff; tauto].
  subst r. unfold RNNBase__init__, returns.
  destruct (check_dropout dropout) as [[]|e]; simpl.
  - destruct (gate_size_of mode hidden_size) as [g|e]; simpl.
    + destruct (reset_parameters hidden_size) as [[]|e]; simpl.
      * split; [intros _|intros _; by eexists]. split_and!; [done|by eexists|done].
      * split; [by intros [? ?]|by intros (_ & _ & ?)].
    + split; [by intros [? ?]|by intros (_ & [? ?] & _)].
  - split; [by intros [? ?]|by intros (? & _)].
Qed.

Lemma int_fits_float_positive (z : Z) :
  0 < z → int_fits_float z = true ↔ z < 2 ^ 1024 - 2 ^ 970.
Proof. intros Hz. unfold int_fits_float. rewrite Z.ltb_lt. lia. Qed.

(** X1. Construction can succeed only if dropout is a non-boolean number
    within [0, 1] that converts to a float, the mode is one of the four
    recognised ones, and hidden_size is positive and below 2^1024 - 2^970
    (the integers that convert to a float, as [reset_parameters] needs for
    its square root): if any of these fails, the constructor raises. *)
Theorem X1_construction_requirements :
  (returns r.2 →
   float dropout = Ok tt ∧ is_bool dropout = false ∧
   dropout_in_range dropout = true ∧ mode ∈ recognised_modes ∧
   0 < hidden_size < 2 ^ 1024 - 2 ^ 970) ∧
  (float dropout ≠ Ok tt ∨ is_bool dropout = true ∨
   dropout_in_range dropout = false ∨ mode ∉ recognised_modes ∨
   hidden_size ≤ 0 ∨ 2 ^ 1024 - 2 ^ 970 ≤ hidden_size →
   raises r.2).
Proof.
  assert (returns r.2 →
    float dropout = Ok tt ∧ is_bool dropout = false ∧
    dropout_in_range dropout = true ∧ mode ∈ recognised_modes ∧
    0 < hidden_size < 2 ^ 1024 - 2 ^ 970) as Hnec.
  { intros (Hf & Hb & Hr & Hm & Hh & Hfit)%init_returns_iff.
    apply int_fits_float_positive in Hfit; [|done]. by split_and!. }
  split; [exact Hnec|]. intros Hbad.
  destruct r.2 as [m|e] eqn:Hr; [|by eexists]. exfalso.
  destruct Hnec as (Hf & Hb & Hrange & Hm & Hh); [by eexists|].
  destruct Hbad as [?|[?|[?|[?|[?|?]]]]]; try done; try lia.
  - by rewrite Hb in *.
  - by rewrite Hrange in *.
Qed.

(** X2. The arguments are validated in a fixed order. A dropout error is
    raised first and without any warning. Once dropout is accepted, the
    single-layer dropout warning is emitted before the mode is looked at: with
    an unrecognised mode the constructor both warns and raises the mode error,
    whatever hidden_size is. *)
Theorem X2_validation_order :
  (∀ e, check_dropout dropout = Raise e → r = ([], Raise e)) ∧
  (check_dropout dropout = Ok tt → mode ∉ recognised_modes →
   r = (if gt_zero dropout && (num_layers =? 1)
        then [DropoutWarning dropout num_layers] else [],
        Raise (ValueError ("Unrecognized RNN mode: " +:+ mode)))).
Proof.
  subst r. unfold RNNBase__init__. split.
  - by intros e ->.
  - intros -> Hmode. by rewrite gate_size_of_unrecognised.
Qed.

End construction_outcome.

(** dropout=0.5, one layer, mode 'FOO': the warning, then the mode error. *)
Lemma X2_validation_order_witness :
  RNNBase__init__ ClsRNNBase "FOO" 16 0 1 true false (NFloat (FFin (1 # 2))) false
  = ([DropoutWarning (NFloat (FFin (1 # 2))) 1],
     Raise (ValueError "Unrecognized RNN mode: FOO")).
Proof.
  refine (proj2 (X2_validation_order ClsRNNBase "FOO" 16 0 1 true false
                   (NFloat (FFin (1 # 2))) false) eq_refl _).
  unfold recognised_modes. rewrite !not_elem_of_cons.
  split_and!; try discriminate. apply not_elem_of_nil.
Defined.

Section registered_parameters.

Lemma concat_fmap_bind {A B} (f : A → list B) (l : list A) :
  concat (f <$> l) = l ≫= f.
Proof. induction l as [|x l IH]; [done|]. by rewrite fmap_cons, bind_cons, <- IH. Qed.

Lemma foldl_snoc_fmap {A B} (h : A → B) (a : list B) (l : list A) :
  foldl (λ acc x, (acc ++ [h x])%list) a l = (a ++ (h <$> l))%list.
Proof.
  revert a. induction l as [|x l IH]; intros a; simpl.
  - by rewrite app_nil_r.
  - by rewrite IH, <- app_assoc.
Qed.

Context (c : rnn_class) (mode : string) (input_size hidden_size num_layers : Z)
  (bias batch_first : bool) (dropout : number) (bidirectional : bool)
  (w : list warning) (m : RNNBase).

(** X3. In a constructed module the names listed in [_all_weights] are pairwise
    distinct, and they are exactly the names under which a parameter is
    registered: nothing listed is missing, nothing registered is unlisted. *)
Theorem X3_registered_names :
  RNNBase__init__ c mode input_size hidden_size num_layers bias batch_first
    dropout bidirectional = (w, Ok m) →
  NoDup (concat (_all_weights m)) ∧
  ∀ name, is_Some (parameters m !! name) ↔ name ∈ concat (_all_weights m).
Proof.
  intros Hinit.
  destruct (RNNBase__init__Ok _ _ _ _ _ _ _ _ _ _ _ Hinit)
    as (_ & _ & _ & g & _ & Hp & Hw & _).
  simpl in Hp, Hw. rewrite Hp, Hw, init_weights_flat. simpl.
  rewrite concat_fmap_bind,
    <- (all_pairs_keys input_size hidden_size g bidirectional bias). split.
  - apply all_pairs_NoDup.
  - intros name. rewrite <- not_eq_None_Some.
    rewrite <- not_elem_of_list_to_map, fmap_reverse, elem_of_reverse.
    split; [apply dec_stable|auto].
Qed.

End registered_parameters.

(** A bidirectional two-layer GRU without bias registers eight names. *)
Lemma X3_registered_names_witness :
  ∃ m, RNNBase__init__ ClsRNNBase "GRU" 16 32 2 false false (NFloat (FFin 0)) true
       = ([], Ok m) ∧
    NoDup (concat (_all_weights m)) ∧
    is_Some (parameters m !! "weight_hh_l1_reverse") ∧
    ¬ is_Some (parameters m !! "bias_hh_l1_reverse").
Proof.
  eexists. split; [reflexivity|].
  match goal with
  | |- NoDup (concat (_all_weights ?m)) ∧ _ =>
      destruct (X3_registered_names ClsRNNBase "GRU" 16 32 2 false false
                  (NFloat (FFin 0)) true [] m eq_refl) as [Hnd Hdom]
  end.
  split; [exact Hnd|]. split.
  - apply Hdom. vm_compute. do 7 apply list_elem_of_further.
    apply list_elem_of_here.
  - rewrite Hdom, list_elem_of_In. vm_compute.
    intros H. repeat (destruct H as [H|H]; [discriminate H|]). exact H.
Defined.

Section all_weights_property.

Lemma getattr_each_found (self : RNNBase) (names : list string)
    (ps : list TorchParameter) :
  Forall2 (λ name p, parameters self !! name = Some p) names ps →
  getattr_each self names = AttrOk ps.
Proof.
  induction 1 as [|name p names ps Hp _ IH]; [done|].
  simpl. unfold getattr. by rewrite Hp, IH.
Qed.

Lemma all_weights_of_found (self : RNNBase) (all : list (list string))
    (pss : list (list TorchParameter)) :
  Forall2 (Forall2 (λ name p, parameters self !! name = Some p)) all pss →
  all_weights_of self all = AttrOk pss.
Proof.
  induction 1 as [|names ps all pss Hps _ IH]; [done|].
  simpl. by rewrite (getattr_each_found _ _ _ Hps), IH.
Qed.

Lemma Forall2_zip_take {A B} (P : A → B → Prop) (l : list A) (k : list B) :
  (length l ≤ length k)%nat →
  (∀ x y, (x, y) ∈ zip l k → P x y) →
  Forall2 P l (take (length l) k).
Proof.
  revert k. induction l as [|x l IH]; intros [|y k] Hlen Hzip; simpl in *;
    try (constructor || lia).
  - apply Hzip, list_elem_of_here.
  - apply IH; [lia|]. intros x' y' Hin. by apply Hzip, list_elem_of_further.
Qed.

Context (c : rnn_class) (mode : string) (input_size hidden_size num_layers : Z)
  (bias batch_first : bool) (dropout : number) (bidirectional : bool)
  (w : list warning) (m : RNNBase).

(** X4. On a constructed module the property [all_weights] never raises:
    every listed name resolves. It returns, for the layers and directions in
    loop order, the input weight and the hidden weight, followed by the two
    biases exactly when bias is enabled. *)
Theorem X4_all_weights_resolve :
  RNNBase__init__ c mode input_size hidden_size num_layers bias batch_first
    dropout bidirectional = (w, Ok m) →
  ∃ multiplier, gate_multiplier mode multiplier ∧
    all_weights m
    = AttrOk ((λ ld : nat * nat,
                 take (if bias then 4 else 2)%nat
                   (layer_params (multiplier * hidden_size)
                      (layer_input_size input_size hidden_size
                         (num_directions bidirectional) ld.1) hidden_size))
              <$> iterations bidirectional num_layers).
Proof.
  intros Hinit.
  destruct (RNNBase__init__Ok _ _ _ _ _ _ _ _ _ _ _ Hinit)
    as (_ & _ & _ & g & Hg & Hp & Hw & _).
  apply gate_size_of_Ok in Hg as (k & Hk & ->).
  exists k. split; [done|]. unfold all_weights. simpl in Hp, Hw.
  apply all_weights_of_found. rewrite Hw, init_weights_flat. simpl.
  apply Forall2_fmap, Forall_Forall2_diag, Forall_forall. intros ld Hld.
  rewrite <- (param_names_length bias ld.1 ld.2).
  apply Forall2_zip_take.
  - rewrite param_names_length. destruct bias; simpl; lia.
  - intros name p Hin. rewrite Hp. apply init_weights_lookup.
    exists ld. split; [done|]. exact Hin.
Qed.

(** X5. When the restored [_all_weights] is in the old format (its first entry
    is not a name), [__setstate__] rebuilds the names, and the names it
    rebuilds are those the constructor listed for the same number of layers,
    directions and bias setting. *)
Theorem X5_setstate_rebuilds_constructor_names
    (restored : list (list weight_entry))
    (d_all_weights : option (list (list weight_entry)))
    (first : list weight_entry) (p : TorchParameter) :
  RNNBase__init__ c mode input_size hidden_size num_layers bias batch_first
    dropout bidirectional = (w, Ok m) →
  default restored d_all_weights !! 0%nat = Some first →
  first !! 0%nat = Some (WParam p) →
  RNNBase__setstate__ m restored d_all_weights
  = Ok ((λ names : list string, WName <$> names) <$> _all_weights m).
Proof.
  intros Hinit.
  destruct (RNNBase__init__Ok _ _ _ _ _ _ _ _ _ _ _ Hinit)
    as (_ & _ & _ & g & _ & _ & Hw & _ & _ & _ & _ & Hnl & Hbias & _ & Hbi).
  intros Hfirst Hp. unfold RNNBase__setstate__.
  replace (match d_all_weights with Some w0 => w0 | None => restored end)
    with (default restored d_all_weights) by by destruct d_all_weights.
  rewrite Hfirst, Hp, Hnl, Hbias, Hbi. do 2 f_equal.
  simpl in Hw. rewrite Hw, init_weights_flat. simpl.
  transitivity
    (foldl (λ acc ld, (acc ++ [param_names bias ld.1 ld.2])%list) []
       (iterations bidirectional num_layers));
    [|by rewrite (foldl_snoc_fmap (λ ld : nat * nat, param_names bias ld.1 ld.2))].
  unfold setstate_rebuild, iterations.
  rewrite foldl_bind. apply foldl_ext. intros acc l.
  rewrite foldl_bind. apply foldl_ext. intros acc' d. simpl.
  by destruct bias.
Qed.

End all_weights_property.

(** A two-layer LSTM without bias: two parameters per layer. *)
Lemma X4_all_weights_resolve_witness :
  ∃ m, LSTM__init__ 16 32 2 false false (NFloat (FFin 0)) false = ([], Ok m) ∧
    all_weights m
    = AttrOk [[ {| param_shape := [128; 16] |}; {| param_shape := [128; 32] |} ];
              [ {| param_shape := [128; 32] |}; {| param_shape := [128; 32] |} ]].
Proof.
  eexists. split; [reflexivity|].
  match goal with
  | |- all_weights ?m = _ =>
      destruct (X4_all_weights_resolve ClsLSTM "LSTM" 16 32 2 false false
                  (NFloat (FFin 0)) false [] m eq_refl) as (k & Hk & Hall)
  end.
  assert (k = 4) as ->.
  { destruct Hk as [[_ ->]|[[[=] _]|[[[=] _]|[[=] _]]]]. reflexivity. }
  exact Hall.
Defined.

(** An old state of a one-layer LSTM, holding the parameters themselves. *)
Lemma X5_setstate_rebuilds_constructor_names_witness :
  ∃ m, LSTM__init__ 16 32 1 true false (NFloat (FFin 0)) false = ([], Ok m) ∧
    RNNBase__setstate__ m
      [[WParam {| param_shape := [128; 16] |};
        WParam {| param_shape := [128; 32] |}]] None
    = Ok [[WName "weight_ih_l0"; WName "weight_hh_l0";
           WName "bias_ih_l0"; WName "bias_hh_l0"]].
Proof.
  eexists. split; [reflexivity|].
  match goal with
  | |- RNNBase__setstate__ ?m ?r None = _ =>
      exact (X5_setstate_rebuilds_constructor_names ClsLSTM "LSTM" 16 32 1 true
               false (NFloat (FFin 0)) false [] m r None _ _
               eq_refl eq_refl eq_refl)
  end.
Defined.

Section forward_args_acceptance.

Context (self : RNNBase) (input : Tensor) (batch_sizes : option (list Z)).

Let expected_rank : Z := match batch_sizes with Some _ => 2 | None => 3 end.
Let layers_times_directions : Z :=
  num_layers self * num_directions (bidirectional self).

(** X6. The forward-argument check of the base class accepts exactly when the
    input has the expected rank, its last dimension is input_size, the batch
    size can be read, and the hidden state has the shape
    (num_layers * num_directions, batch, hidden_size). *)
Theorem X6_check_forward_args_accepts_iff (h : Tensor) :
  RNNBase_check_forward_args self input h batch_sizes = Ok tt ↔
  Tensor_dim input = expected_rank ∧
  last (Tensor_size input) = Some (input_size self) ∧
  ∃ batch, mini_batch self input batch_sizes = Ok batch ∧
    Tensor_size h = [layers_times_directions; batch; hidden_size self].
Proof.
  unfold RNNBase_check_forward_args.
  destruct (check_input self input batch_sizes) as [[]|e] eqn:Hin; simpl.
  - apply check_input_Ok in Hin as [Hrank Hlast].
    unfold get_expected_hidden_size.
    destruct (mini_batch self input batch_sizes) as [batch|e]; simpl.
    + rewrite check_hidden_size_spec. case_decide as Hh.
      * split; [intros _|done]. split_and!; [done..|]. by exists batch.
      * split; [done|]. intros (_ & _ & batch' & [= <-] & Hh'). done.
    + split; [done|]. by intros (_ & _ & batch' & [=] & _).
  - split; [done|]. intros (Hrank & Hlast & _).
    by rewrite (proj2 (check_input_Ok self input batch_sizes)) in Hin.
Qed.

(** X7. The LSTM check accepts a pair (hidden state, cell state) exactly when
    the check of the base class accepts each of the two on its own. *)
Theorem X7_lstm_check_is_both_base_checks (h c : Tensor) :
  LSTM_check_forward_args self input (h, c) batch_sizes = Ok tt ↔
  RNNBase_check_forward_args self input h batch_sizes = Ok tt ∧
  RNNBase_check_forward_args self input c batch_sizes = Ok tt.
Proof.
  unfold LSTM_check_forward_args, RNNBase_check_forward_args.
  destruct (check_input self input batch_sizes) as [[]|e]; simpl;
    [|by split; [|intros [? _]]].
  destruct (get_expected_hidden_size self input batch_sizes) as [expected|e];
    simpl; [|by split; [|intros [? _]]].
  rewrite !check_hidden_size_spec.
  destruct (decide (Tensor_size h = expected)); simpl;
    [|by split; [|intros [? _]]].
  destruct (decide (Tensor_size c = expected)); simpl; [done|].
  by split; [|intros [_ ?]].
Qed.

End forward_args_acceptance.

Section expected_hidden_size.

Context (self : RNNBase) (input : Tensor).

Lemma last_of_three {A} (l : list A) (x : A) :
  length l = 3%nat → last l = Some x → ∃ a b, l = [a; b; x].
Proof.
  destruct l as [|a [|b [|y [|]]]]; try done. intros _ [= <-]. by exists a, b.
Qed.

Lemma last_of_two {A} (l : list A) (x : A) :
  length l = 2%nat → last l = Some x → ∃ a, l = [a; x].
Proof.
  destruct l as [|a [|y [|]]]; try done. intros _ [= <-]. by exists a.
Qed.

(** X8. Once the input has passed [check_input], the expected hidden size is
    read without an index error when no batch sizes are supplied: the input
    is (a, b, input_size) and the batch is a with batch_first and b without.
    With batch sizes supplied the input is (a, input_size) and the batch is
    the first batch size, whatever the input holds; an empty batch-size tensor
    is an IndexError. *)
Theorem X8_expected_hidden_size_after_check_input :
  (check_input self input None = Ok tt →
   ∃ a b, Tensor_size input = [a; b; input_size self] ∧
     get_expected_hidden_size self input None
     = Ok [num_layers self * num_directions (bidirectional self);
           if batch_first self then a else b; hidden_size self]) ∧
  (∀ bs, check_input self input (Some bs) = Ok tt →
   (∃ a, Tensor_size input = [a; input_size self]) ∧
   get_expected_hidden_size self input (Some bs)
   = match bs with
     | [] => Raise IndexError
     | b :: _ => Ok [num_layers self * num_directions (bidirectional self);
                     b; hidden_size self]
     end).
Proof.
  split.
  - intros [Hrank Hlast]%check_input_Ok. unfold Tensor_dim in Hrank.
    destruct (last_of_three (Tensor_size input) (input_size self))
      as (a & b & Hsize); [lia|done|].
    exists a, b. split; [done|].
    unfold get_expected_hidden_size, mini_batch, Tensor_size_at.
    rewrite Hsize. by destruct (batch_first self).
  - intros bs [Hrank Hlast]%check_input_Ok. unfold Tensor_dim in Hrank. split.
    + apply last_of_two; [lia|done].
    + unfold get_expected_hidden_size, mini_batch. by destruct bs.
Qed.

End expected_hidden_size.

(** A batch-first LSTM fed an input of shape (4, 10, 16): the batch is 4. *)
Lemma X8_expected_hidden_size_after_check_input_witness :
  ∃ m, LSTM__init__ 16 32 2 true true (NFloat (FFin 0)) false = ([], Ok m) ∧
    get_expected_hidden_size m
      {| Tensor_size := [4; 10; 16]; Tensor_layer_name := "data" |} None
    = Ok [2; 4; 32].
Proof.
  eexists. split; [reflexivity|].
  match goal with
  | |- get_expected_hidden_size ?m ?i None = _ =>
      destruct (proj1 (X8_expected_hidden_size_after_check_input m i) eq_refl)
        as (a & b & Hsize & Hexp)
  end.
  injection Hsize as <- <-. exact Hexp.
Defined.

(** The base check accepts a matching hidden state. *)
Lemma X6_check_forward_args_accepts_iff_witness :
  ∃ m, LSTM__init__ 16 32 2 true true (NFloat (FFin 0)) false = ([], Ok m) ∧
    RNNBase_check_forward_args m
      {| Tensor_size := [4; 10; 16]; Tensor_layer_name := "data" |}
      {| Tensor_size := [2; 4; 32]; Tensor_layer_name := "h0" |} None = Ok tt.
Proof.
  eexists. split; [reflexivity|].
  match goal with
  | |- RNNBase_check_forward_args ?m ?i ?h None = _ =>
      apply (proj2 (X6_check_forward_args_accepts_iff m i None h))
  end.
  split_and!; [reflexivity..|]. exists 4. by split.
Defined.

(** The LSTM check accepts a matching pair. *)
Lemma X7_lstm_check_is_both_base_checks_witness :
  ∃ m, LSTM__init__ 16 32 2 true true (NFloat (FFin 0)) false = ([], Ok m) ∧
    LSTM_check_forward_args m
      {| Tensor_size := [4; 10; 16]; Tensor_layer_name := "data" |}
      ({| Tensor_size := [2; 4; 32]; Tensor_layer_name := "h0" |},
       {| Tensor_size := [2; 4; 32]; Tensor_layer_name := "c0" |}) None = Ok tt.
Proof.
  eexists. split; [reflexivity|].
  match goal with
  | |- LSTM_check_forward_args ?m ?i (?h, ?c) None = _ =>
      apply (proj2 (X7_lstm_check_is_both_base_checks m i None h c))
  end.
  split; reflexivity.
Defined.

Section lstm_lowering.

Context (self : RNNBase) (input : Tensor).

(** The subnetwork of a stacked LSTM is always assembled: the name "output"
    never meets a layer name. *)
Lemma lstm_subnetwork_assembled :
  dict_kwargs
    (dict_comprehension lstm_layer_key lstm_layer_node (range (num_layers self)))
    [("output", lstm_output_node (num_layers self))]
  = Ok ((subnetwork_layer <$> range (num_layers self)) ++
        [("output", lstm_output_node (num_layers self))])%list.
Proof.
  rewrite dict_comprehension_distinct
    by apply lstm_layer_keys_NoDup, NoDup_seq.
  unfold dict_kwargs. rewrite bool_decide_true; [done|].
  repeat constructor. unfold dict_keys. rewrite <- list_fmap_compose.
  apply output_not_layer_key.
Qed.

(** X9. The LSTM lowering raises exactly when the module is bidirectional, or
    has more than one layer and is given an initial state; in every other
    case it returns a node, of class "subnetwork" when there is more than one
    layer and of class "rec" otherwise, reading the input's node. *)
Theorem X9_lstm_lowering_outcome (hx : option Tensor) :
  (raises (LSTM_create_returnn_layer_dict self input hx) ↔
   bidirectional self = true ∨ (1 < num_layers self ∧ hx ≠ None)) ∧
  (∀ d, LSTM_create_returnn_layer_dict self input hx = Ok d →
     dict_get "class" d
     = Some (VStr (if 1 <? num_layers self then "subnetwork" else "rec")) ∧
     dict_get "from" d = Some (VStr (_get_input_layer_name input))).
Proof.
  unfold LSTM_create_returnn_layer_dict.
  destruct (bidirectional self); simpl.
  { split; [|done]. split; [by left|by eexists]. }
  destruct (Z.ltb_spec 1 (num_layers self)) as [Hn|Hn].
  - destruct hx as [h|]; simpl.
    + split; [|done]. split; [by right|by eexists].
    + rewrite lstm_subnetwork_assembled. simpl. split.
      * split; [by intros [e ?]|]. by intros [?|[_ ?]].
      * by intros d [= <-].
  - split.
    + split; [by intros [e ?]|]. intros [?|[? _]]; [done|lia].
    + intros d [= <-]. by destruct hx.
Qed.

(** X10. The subnetwork a stacked LSTM lowers to is closed and ordered: its
    last node is "output", and every node reads either "data" or a node
    declared before it in the same subnetwork. *)
Theorem X10_subnetwork_references_resolve :
  bidirectional self = false → 1 < num_layers self →
  ∃ sub : dict,
    LSTM_create_returnn_layer_dict self input None
    = Ok [("class", VStr "subnetwork");
          ("from", VStr (_get_input_layer_name input));
          ("subnetwork", VDict sub)] ∧
    (∃ node, last sub = Some ("output", node)) ∧
    ∀ (i : nat) (name : string) (node : value),
      sub !! i = Some (name, node) →
      ∃ fields src,
        node = VDict fields ∧ dict_get "from" fields = Some (VStr src) ∧
        (src = "data" ∨ ∃ (j : nat) earlier,
           (j < i)%nat ∧ sub !! j = Some (src, earlier)).
Proof.
  intros Hbi Hn. unfold LSTM_create_returnn_layer_dict. rewrite Hbi. simpl.
  destruct (Z.ltb_spec 1 (num_layers self)); [|lia]. simpl.
  rewrite lstm_subnetwork_assembled. simpl. eexists. split; [reflexivity|].
  unfold range. set (n := Z.to_nat (num_layers self)).
  assert (2 ≤ n)%nat as Hn2 by lia.
  assert (∀ j, (j < n)%nat →
    ((subnetwork_layer <$> seq 0 n) ++
     [("output", lstm_output_node (num_layers self))])%list !! j
    = Some (subnetwork_layer j)) as Hlayer.
  { intros j Hj. rewrite lookup_app_l by (rewrite length_fmap, length_seq; lia).
    rewrite list_lookup_fmap, lookup_seq_lt by done. done. }
  split.
  - rewrite last_snoc. by eexists.
  - intros i name node Hi.
    destruct (decide (i < n)%nat) as [Hlt|Hge].
    + rewrite Hlayer in Hi by done. injection Hi as <- <-.
      eexists _, _. split; [reflexivity|]. split; [reflexivity|].
      destruct (decide (i = 0%nat)) as [->|Hi0]; [by left|]. right.
      exists (i - 1)%nat, (subnetwork_layer (i - 1)).2.
      split; [lia|]. rewrite Hlayer by lia. done.
    + rewrite lookup_app_r in Hi by (rewrite length_fmap, length_seq; lia).
      rewrite length_fmap, length_seq in Hi.
      destruct (i - n)%nat as [|k] eqn:Hk; [|done].
      injection Hi as <- <-. unfold lstm_output_node.
      eexists _, _. split; [reflexivity|]. split; [reflexivity|]. right.
      exists (n - 1)%nat, (subnetwork_layer (n - 1)).2.
      split; [lia|]. rewrite Hlayer by lia.
      replace (num_layers self - 1) with (Z.of_nat (n - 1)) by lia.
      by rewrite strZ_of_nat.
Qed.

End lstm_lowering.

(** A three-layer LSTM: "layer2" reads "layer1", declared before it. *)
Lemma X10_subnetwork_references_resolve_witness :
  ∃ m, LSTM__init__ 16 32 3 true false (NFloat (FFin 0)) false = ([], Ok m) ∧
    ∃ sub : dict,
      LSTM_create_returnn_layer_dict m
        {| Tensor_size := [10; 2; 16]; Tensor_layer_name := "data" |} None
      = Ok [("class", VStr "subnetwork"); ("from", VStr "data");
            ("subnetwork", VDict sub)] ∧
      ∃ node, last sub = Some ("output", node).
Proof.
  eexists. split; [reflexivity|].
  match goal with
  | |- ∃ sub, LSTM_create_returnn_layer_dict ?m ?i None = _ ∧ _ =>
      destruct (X10_subnetwork_references_resolve m i eq_refl eq_refl)
        as (sub & Hsub & Hlast & _)
  end.
  exists sub. split; [exact Hsub|exact Hlast].
Defined.

(** * Further properties of the orchestrator *)

Section stages.

Context {ndarray : Type} `{!Numpy ndarray}.
Context {Naming LiveNetwork TFNetwork Checkpoint : Type}.
Context (ext : @Externals ndarray Naming LiveNetwork TFNetwork Checkpoint).

Local Abbreviation Conv := (@Converter ndarray Naming).

Lemma torch_axes_mapM (m : gmap nat Z) (ndim : Z) :
  torch_axes m ndim
  = match mapM (λ i, m !! i) (range ndim) with
    | Some axes => Ok axes
    | None => Raise KeyError
    end.
Proof.
  unfold torch_axes. induction (range ndim) as [|i l IH]; [done|].
  simpl. rewrite IH. destruct (m !! i) as [ax|]; [|done]. simpl.
  by destruct (mapM _ l).
Qed.

(** X11. The axes for the transposition are read from the axis mapping at the
    keys 0 .. ndim-1, in this order: if all these keys are present the result
    lists their values, and if one of them is missing the lookup raises
    KeyError; no other outcome exists, and other keys are never read. *)
Theorem X11_torch_axes_outcome (m : gmap nat Z) (ndim : Z) :
  (∀ axes, torch_axes m ndim = Ok axes ↔
           Some <$> axes = (λ i, m !! i) <$> range ndim) ∧
  (torch_axes m ndim = Raise KeyError ↔
   ∃ i : nat, (i < Z.to_nat ndim)%nat ∧ m !! i = None) ∧
  (∀ e, torch_axes m ndim = Raise e → e = KeyError).
Proof.
  rewrite torch_axes_mapM. split_and!.
  - intros axes. destruct (mapM _ _) as [axes'|] eqn:Hm.
    + apply mapM_Some in Hm. split.
      * intros [= <-]. induction Hm as [|???? Hx _ IH]; [done|].
        by rewrite !fmap_cons, Hx, IH.
      * intros Heq. f_equal. revert axes Heq.
        induction Hm as [|i ax l k Hx _ IH]; intros [|a axes]; try done.
        rewrite !fmap_cons. intros [= Ha Hrest]. rewrite Hx in Ha.
        injection Ha as <-. f_equal. by apply IH.
    + split; [done|]. intros Heq. exfalso. apply mapM_None in Hm.
      apply Exists_exists in Hm as (i & Hi & Hnone).
      apply list_elem_of_lookup in Hi as [j Hj].
      apply (f_equal (λ l, l !! j)) in Heq.
      rewrite !list_lookup_fmap, Hj in Heq. simpl in Heq. rewrite Hnone in Heq.
      by destruct (axes !! j).
  - destruct (mapM _ _) as [axes'|] eqn:Hm.
    + split; [done|]. intros (i & Hi & Hnone). exfalso.
      apply mapM_Some in Hm.
      assert (range ndim !! i = Some i) as Hlook
        by (unfold range; by rewrite lookup_seq_lt).
      destruct (Forall2_lookup_l _ _ _ _ _ Hm Hlook) as (ax & _ & Hax).
      congruence.
    + split; [intros _|done]. apply mapM_None in Hm.
      apply Exists_exists in Hm as (i & Hi & Hnone).
      exists i. split; [|done]. unfold range in Hi.
      apply elem_of_seq in Hi. lia.
  - intros e. by destruct (mapM _ _); intros [=].
Qed.

(** What each stage leaves behind when it succeeds. *)
Lemma stage_A_Ok (self a : Conv) :
  _run_reference ext self = Ok a ↔
  ∃ ref, model_reference ext (_inputs_np self) = Ok ref ∧
         a = set_out_ref_np (Some ref) self.
Proof.
  unfold _run_reference.
  destruct (model_reference ext (_inputs_np self)) as [ref|e]; simpl.
  - split; [intros [= <-]; by exists ref|]. by intros (ref' & [= <-] & ->).
  - split; [done|]. by intros (ref' & [=] & _).
Qed.

Lemma stage_B_Ok (self b : Conv) :
  _run_traced_orig_torch ext self = Ok b →
  ∃ out naming,
    model_traced ext (verify_individual_model_io self) (_inputs_np self)
      = Ok (out, naming) ∧
    b = match _out_ref_np self with
        | Some _ => set_torch_namespace (Some naming) self
        | None => set_out_ref_np (Some out)
                    (set_torch_namespace (Some naming) self)
        end ∧
    ∀ ref, _out_ref_np self = Some ref →
      np_shape ref = np_shape out ∧
      np_assert_allclose ref out None None = Ok tt.
Proof.
  unfold _run_traced_orig_torch.
  destruct (model_traced ext _ _) as [[out naming]|e]; simpl; [|done].
  intros Hb. exists out, naming. split; [done|].
  destruct (_out_ref_np self) as [ref|]; simpl in Hb.
  - case_bool_decide as Hshape; simpl in Hb; [|done].
    destruct (np_assert_allclose ref out None None) as [[]|e] eqn:Hclose;
      simpl in Hb; [|done].
    injection Hb as <-. split; [done|]. by intros ref' [= <-].
  - injection Hb as <-. split; [done|]. by intros ref' [=].
Qed.

Lemma stage_C_Ok (self c : Conv) (files f : gmap string Checkpoint) :
  _run_torch_returnn_drop_in ext self files = Ok (c, f) →
  ∃ tr y_ y_size axes y_torch,
    model_returnn ext (_torch_namespace self) (_returnn_in_data_dict self)
      (_inputs_np self) = Ok tr ∧
    session_run ext (trace_network tr) (_inputs_np self) (seq_lens self)
      = Ok (y_, y_size) ∧
    torch_axes (trace_axis_to_torch_axis tr) (np_ndim y_) = Ok axes ∧
    np_transpose y_ axes = Ok y_torch ∧
    (∀ ref, _out_ref_np self = Some ref →
       np_assert_allclose ref y_torch (Some 0%Q) (Some (1 # 10000)%Q) = Ok tt) ∧
    let self1 := set_returnn_outputs (trace_net_dict tr) y_ self in
    if saves_checkpoint self then
      ∃ ckpt, save_params_to_file ext (trace_network tr) = Ok ckpt ∧
        c = set_tf_checkpoint_save_path (Some (checkpoint_path ext self)) self1 ∧
        f = <[checkpoint_path ext self := ckpt]> files
    else c = self1 ∧ f = files.
Proof.
  intros HC.
  destruct (model_returnn ext (_torch_namespace self)
              (_returnn_in_data_dict self) (_inputs_np self))
    as [tr|e] eqn:Htr; [|by rewrite (stage_C_trace_fails _ _ _ _ Htr) in HC].
  destruct (session_run ext (trace_network tr) (_inputs_np self) (seq_lens self))
    as [[y_ y_size]|e] eqn:Hrun;
    [|by rewrite (stage_C_run_fails _ _ _ _ _ Htr Hrun) in HC].
  rewrite (stage_C_after_run _ _ _ _ _ _ Htr Hrun) in HC. simpl in HC.
  destruct (torch_axes _ _) as [axes|e] eqn:Haxes; simpl in HC; [|done].
  destruct (np_transpose y_ axes) as [y_torch|e] eqn:Htrans; simpl in HC; [|done].
  exists tr, y_, y_size, axes, y_torch. split_and!; try done.
  - intros ref Href. rewrite Href in HC. unfold atol_1e_4 in HC.
    by destruct (np_assert_allclose ref y_torch _ _) as [[]|e].
  - destruct (match _out_ref_np self with Some _ => _ | None => _ end)
      as [[]|e]; simpl in HC; [|done].
    unfold saves_checkpoint, checkpoint_path.
    destruct (path_given (export_tf_checkpoint_save_path self)
              || verify_returnn_standalone_model self).
    + destruct (save_params_to_file ext (trace_network tr)) as [ckpt|e];
        simpl in HC; [|done].
      injection HC as <- <-. by exists ckpt.
    + by injection HC as <- <-.
Qed.

Lemma stage_D_Ok (self : Conv) (files : gmap string Checkpoint) :
  _run_returnn_standalone ext self files = Ok tt →
  ∃ net_dict net0 net y_ y_size out_C,
    _returnn_net_dict self = Some net_dict ∧
    construct_from_dict ext
      [("extern_data", VDict [("data", VDict (_returnn_in_data_dict self))]);
       ("debug_print_layer_output_template", VInt 1)] net_dict = Ok net0 ∧
    load_params_from_file ext
      (path ← _tf_checkpoint_save_path self; files !! path) net0 = Ok net ∧
    network_run ext net (_inputs_np self) (seq_lens self) = Ok (y_, y_size) ∧
    _out_returnn_np self = Some out_C ∧
    np_assert_allclose out_C y_ (Some 0%Q) (Some (1 # 10000)%Q) = Ok tt.
Proof.
  unfold _run_returnn_standalone.
  destruct (_returnn_net_dict self) as [net_dict|]; simpl; [|done].
  destruct (construct_from_dict ext _ net_dict) as [net0|e] eqn:H0;
    simpl; [|done].
  destruct (load_params_from_file ext _ net0) as [net|e] eqn:H1; simpl; [|done].
  destruct (network_run ext net (_inputs_np self) (seq_lens self))
    as [[y_ y_size]|e] eqn:H2; simpl; [|done].
  destruct (_out_returnn_np self) as [out_C|]; simpl; [|done].
  intros Hcmp. by exists net_dict, net0, net, y_, y_size, out_C.
Qed.

Lemma run_Ok (self c : Conv) (files f : gmap string Checkpoint) :
  run ext self files = Ok (c, f) →
  ∃ a b,
    (if use_non_wrapped_reference self then _run_reference ext self
     else Ok self) = Ok a ∧
    (if runs_stage_B a then _run_traced_orig_torch ext a else Ok a) = Ok b ∧
    _run_torch_returnn_drop_in ext b files = Ok (c, f) ∧
    (verify_returnn_standalone_model c = true →
     _run_returnn_standalone ext c f = Ok tt).
Proof.
  unfold run. fold (runs_stage_B self).
  destruct (if use_non_wrapped_reference self then _ else _) as [a|e] eqn:HA;
    simpl; [|done].
  fold (runs_stage_B a).
  destruct (if runs_stage_B a then _ else _) as [b|e] eqn:HB; simpl; [|done].
  destruct (_run_torch_returnn_drop_in ext b files) as [[c' f']|e] eqn:HC;
    simpl; [|done].
  destruct (verify_returnn_standalone_model c') eqn:Hv.
  - destruct (_run_returnn_standalone ext c' f') as [[]|e] eqn:HD;
      simpl; [|done].
    intros [= <- <-]. by exists a, b.
  - simpl. intros [= <- <-]. exists a, b. split_and!; try done.
    by rewrite Hv.
Qed.

End stages.

Section pipeline.

Context {ndarray : Type} `{!Numpy ndarray}.
Context {Naming LiveNetwork TFNetwork Checkpoint : Type}.
Context (ext : @Externals ndarray Naming LiveNetwork TFNetwork Checkpoint).
Context (self : @Converter ndarray Naming) (files : gmap string Checkpoint).


(** X13. Whenever Stage A and Stage B both run, a Stage B output that differs
    from Stage A's in shape, or that [assert_allclose] rejects, aborts the
    whole run before Stage C; this holds whichever of the three options made
    Stage B run, so also with verify_with_torch switched off. *)
Theorem X13_stage_B_divergence_aborts_run (ref out : ndarray) (naming : Naming) :
  use_non_wrapped_reference self = true → runs_stage_B self = true →
  model_reference ext (_inputs_np self) = Ok ref →
  model_traced ext (verify_individual_model_io self) (_inputs_np self)
    = Ok (out, naming) →
  (np_shape ref ≠ np_shape out → run ext self files = Raise AssertionError) ∧
  (np_shape ref = np_shape out →
   ∀ e, np_assert_allclose ref out None None = Raise e →
        run ext self files = Raise e).
Proof.
  intros HA HB Href Htraced. unfold run.
  rewrite HA. unfold _run_reference. rewrite Href. simpl.
  unfold runs_stage_B in HB. rewrite HB.
  unfold _run_traced_orig_torch. simpl. rewrite Htraced. simpl. split.
  - intros Hshape. by rewrite bool_decide_false.
  - intros Hshape e Hclose. rewrite bool_decide_true by done. simpl.
    by rewrite Hclose.
Qed.

(** The state after a run in which Stages A and B ran. *)
Lemma run_with_reference_state (c : @Converter ndarray Naming)
    (f : gmap string Checkpoint) :
  run ext self files = Ok (c, f) →
  use_non_wrapped_reference self = true → runs_stage_B self = true →
  ∃ ref out naming tr y_ y_size,
    model_reference ext (_inputs_np self) = Ok ref ∧
    model_traced ext (verify_individual_model_io self) (_inputs_np self)
      = Ok (out, naming) ∧
    model_returnn ext (Some naming) (_returnn_in_data_dict self)
      (_inputs_np self) = Ok tr ∧
    session_run ext (trace_network tr) (_inputs_np self) (seq_lens self)
      = Ok (y_, y_size) ∧
    _out_ref_np c = Some ref ∧ _torch_namespace c = Some naming ∧
    _returnn_net_dict c = Some (trace_net_dict tr) ∧
    _out_returnn_np c = Some y_ ∧ _inputs_np c = _inputs_np self.
Proof.
  intros (a & b & HA & HB & HC & _)%run_Ok Huse Hruns.
  rewrite Huse in HA. apply stage_A_Ok in HA as (ref & Href & ->).
  change (runs_stage_B self = true) in Hruns.
  replace (runs_stage_B (set_out_ref_np (Some ref) self)) with true in HB by done.
  apply stage_B_Ok in HB as (out & naming & Htraced & -> & _). simpl in *.
  apply stage_C_Ok in HC
    as (tr & y_ & y_size & axes & y_torch & Htr & Hrun & _ & _ & _ & Hc).
  simpl in *. exists ref, out, naming, tr, y_, y_size.
  split_and!; try done;
    (destruct (saves_checkpoint _);
     [destruct Hc as (? & _ & -> & _)|destruct Hc as [-> _]]; done).
Qed.


(** X14. After a successful run in which Stages A and B ran, the reference
    the converter exposes is Stage A's output (not Stage B's), Stage C was
    traced with the naming session of Stage B, and the converter holds the
    net dictionary of that trace and the untransposed output of the backend;
    the input is unchanged. *)
Theorem X14_run_success_state (c : @Converter ndarray Naming)
    (f : gmap string Checkpoint) :
  run ext self files = Ok (c, f) →
  use_non_wrapped_reference self = true → runs_stage_B self = true →
  ∃ ref out naming tr y_ y_size,
    model_reference ext (_inputs_np self) = Ok ref ∧
    model_traced ext (verify_individual_model_io self) (_inputs_np self)
      = Ok (out, naming) ∧
    model_returnn ext (Some naming) (_returnn_in_data_dict self)
      (_inputs_np self) = Ok tr ∧
    session_run ext (trace_network tr) (_inputs_np self) (seq_lens self)
      = Ok (y_, y_size) ∧
    _out_ref_np c = Some ref ∧ _torch_namespace c = Some naming ∧
    _returnn_net_dict c = Some (trace_net_dict tr) ∧
    _out_returnn_np c = Some y_ ∧ _inputs_np c = _inputs_np self.
Proof. apply run_with_reference_state. Qed.



End pipeline.

Section entry_point.

Context {ndarray : Type} `{!Numpy ndarray}.
Context {Naming LiveNetwork TFNetwork Checkpoint : Type}.
Context (ext : @Externals ndarray Naming LiveNetwork TFNetwork Checkpoint).

(** X17. The library entry point rejects an input that is not of rank 3
    before anything is run. When it succeeds on an input of shape
    (n_batch, n_feature, n_time), all four stages have run and passed:
    Stage A gave the reference; Stage B, traced with keep_orig_module_io_tensors
    on, gave an output of the same shape that [assert_allclose] accepted;
    Stage C was traced with Stage B's naming session, ran on the input with
    n_batch sequence lengths n_time, and its transposed output passed the
    comparison with the reference, and it saved a checkpoint; Stage D built
    the network from the captured net dictionary, loaded that checkpoint, ran
    on the same feed and its output passed the comparison with Stage C's
    output. The returned converter holds the reference, the captured net
    dictionary, Stage C's output and the path "<temporary directory>/model",
    and the files hold the checkpoint under that path. *)
Theorem X17_entry_point (inputs : ndarray) (files : gmap string Checkpoint) :
  (length (np_shape inputs) ≠ 3%nat →
   ∃ msg, verify_torch_and_convert_to_returnn ext inputs files
          = Raise (ValueError msg)) ∧
  (∀ c f, verify_torch_and_convert_to_returnn ext inputs files = Ok (c, f) →
     ∃ n_batch n_feature n_time,
       np_shape inputs = [n_batch; n_feature; n_time] ∧
       let data := [("shape", VTuple [VInt n_feature; VNone]);
                    ("feature_dim_axis", VInt 1); ("time_dim_axis", VInt 2)] in
       let lens := replicate (Z.to_nat n_batch) n_time in
       let path := mkdtemp ext "tmp-returnn-tf-checkpoint" +:+ "/model" in
       ∃ ref out naming tr y_ y_size axes y_torch ckpt net0 net y_D y_D_size,
         model_reference ext inputs = Ok ref ∧
         model_traced ext true inputs = Ok (out, naming) ∧
         np_shape ref = np_shape out ∧
         np_assert_allclose ref out None None = Ok tt ∧
         model_returnn ext (Some naming) data inputs = Ok tr ∧
         session_run ext (trace_network tr) inputs lens = Ok (y_, y_size) ∧
         torch_axes (trace_axis_to_torch_axis tr) (np_ndim y_) = Ok axes ∧
         np_transpose y_ axes = Ok y_torch ∧
         np_assert_allclose ref y_torch (Some 0%Q) (Some (1 # 10000)%Q)
           = Ok tt ∧
         save_params_to_file ext (trace_network tr) = Ok ckpt ∧
         construct_from_dict ext
           [("extern_data", VDict [("data", VDict data)]);
            ("debug_print_layer_output_template", VInt 1)]
           (trace_net_dict tr) = Ok net0 ∧
         load_params_from_file ext (Some ckpt) net0 = Ok net ∧
         network_run ext net inputs lens = Ok (y_D, y_D_size) ∧
         np_assert_allclose y_ y_D (Some 0%Q) (Some (1 # 10000)%Q) = Ok tt ∧
         _out_ref_np c = Some ref ∧
         _returnn_net_dict c = Some (trace_net_dict tr) ∧
         _out_returnn_np c = Some y_ ∧
         _tf_checkpoint_save_path c = Some path ∧
         f = <[path := ckpt]> files ∧
         _inputs_np c = inputs).
Proof.
  unfold verify_torch_and_convert_to_returnn, Converter__init__. split.
  - intros Hlen. destruct (np_shape inputs) as [|? [|? [|? [|]]]];
      simpl in *; try (eexists; reflexivity). by destruct Hlen.
  - intros c f. destruct (np_shape inputs) as [|nb [|nf [|nt [|]]]];
      simpl; try done.
    intros (a & b & HA & HB & HC & HD)%run_Ok. simpl in HA.
    apply stage_A_Ok in HA as (ref & Href & ->). simpl in *.
    apply stage_B_Ok in HB as (out & naming & Htraced & -> & Hcmp_B).
    simpl in *. destruct (Hcmp_B ref eq_refl) as [Hshape Hclose].
    apply stage_C_Ok in HC
      as (tr & y_ & y_size & axes & y_torch & Htr & Hrun & Haxes & Htrans
          & Hcmp_C & Hc).
    unfold checkpoint_path, seq_lens in *. simpl in *.
    destruct Hc as (ckpt & Hsave & -> & ->).
    specialize (HD eq_refl). apply stage_D_Ok in HD
      as (net_dict & net0 & net & y_D & y_D_size & out_C & Hnd & H0 & H1 & H2
          & HoC & Hcmp_D).
    unfold seq_lens in *. simpl in *. injection Hnd as <-. injection HoC as <-.
    rewrite lookup_insert_eq in H1.
    exists nb, nf, nt. split; [done|].
    exists ref, out, naming, tr, y_, y_size, axes, y_torch, ckpt, net0, net,
      y_D, y_D_size.
    split_and!; try done. by apply Hcmp_C.
Qed.

End entry_point.

(** ** The further properties on concrete inputs *)

Section further_witnesses.

Import QArray.

Let ext := demo.externals demo.out_torch.
Let tensor (size : list Z) :=
  {| Tensor_size := size; Tensor_layer_name := "data" |}.

(** hidden_size = 0: the constructor raises. *)
Lemma X1_construction_requirements_witness :
  raises (LSTM__init__ 16 0 1 true false (NFloat (FFin 0)) false).2.
Proof.
  apply (proj2 (X1_construction_requirements ClsLSTM "LSTM" 16 0 1 true false
                  (NFloat (FFin 0)) false)).
  do 4 right. left. reflexivity.
Defined.

(** Two layers and an initial state: the lowering raises. *)
Lemma X9_lstm_lowering_outcome_witness :
  ∃ m, LSTM__init__ 16 32 2 true false (NFloat (FFin 0)) false = ([], Ok m) ∧
    raises (LSTM_create_returnn_layer_dict m (tensor [10; 2; 16])
              (Some (tensor [2; 2; 32]))).
Proof.
  eexists. split; [reflexivity|].
  match goal with
  | |- raises (LSTM_create_returnn_layer_dict ?m ?i ?hx) =>
      apply (proj2 (proj1 (X9_lstm_lowering_outcome m i hx)))
  end.
  right. split; [reflexivity|discriminate].
Defined.

Lemma X11_torch_axes_outcome_witness :
  torch_axes demo.axis_map 3 = Ok [0; 2; 1] ∧
  torch_axes demo.axis_map 4 = Raise KeyError.
Proof.
  split.
  - apply (proj2 (proj1 (X11_torch_axes_outcome demo.axis_map 3) [0; 2; 1])).
    reflexivity.
  - apply (proj2 (proj1 (proj2 (X11_torch_axes_outcome demo.axis_map 4)))).
    exists 3%nat. split; [vm_compute; lia|reflexivity].
Defined.


(** Stage B runs for the parameter import only and returns another shape. *)
Lemma X13_stage_B_divergence_aborts_run_witness :
  ∃ c0, Converter__init__ demo.inputs true false false true None true = Ok c0 ∧
    run (demo.externals demo.out_returnn) c0 ∅ = Raise AssertionError.
Proof.
  eexists. split; [reflexivity|].
  match goal with
  | |- run ?e ?c ?fs = _ =>
      apply (proj1 (X13_stage_B_divergence_aborts_run e c fs
                      demo.out_torch demo.out_returnn tt
                      eq_refl eq_refl eq_refl eq_refl))
  end.
  discriminate.
Defined.

Lemma X14_run_success_state_witness :
  ∃ c0 c f, demo_converter true = Ok c0 ∧ run ext c0 ∅ = Ok (c, f) ∧
    _out_ref_np c = Some demo.out_torch.
Proof.
  eexists _, _, _. split; [reflexivity|].
  match goal with
  | |- run ?e ?c0 ?fs = Ok (?c, ?f) ∧ _ =>
      assert (run e c0 fs = Ok (c, f)) as Hrun by reflexivity;
      destruct (X14_run_success_state e c0 fs c f Hrun eq_refl eq_refl)
        as (ref & out & naming & tr & y_ & y_size & Href & _ & _ & _ & Hr & _)
  end.
  split; [exact Hrun|]. injection Href as <-. exact Hr.
Defined.



Lemma X17_entry_point_witness :
  ∃ c f, verify_torch_and_convert_to_returnn ext demo.inputs ∅ = Ok (c, f) ∧
    _out_ref_np c = Some demo.out_torch ∧
    _tf_checkpoint_save_path c = Some "/tmp/tmp-returnn-tf-checkpoint/model".
Proof.
  eexists _, _.
  match goal with
  | |- verify_torch_and_convert_to_returnn ?e ?i ?fs = Ok (?c, ?f) ∧ _ =>
      assert (verify_torch_and_convert_to_returnn e i fs = Ok (c, f)) as Hrun
        by reflexivity;
      destruct (proj2 (X17_entry_point e i fs) c f Hrun)
        as (nb & nf & nt & _ & ref & out & naming & tr & y_ & y_size & axes
            & y_torch & ckpt & net0 & net & y_D & y_D_size
            & Href & _ & _ & _ & _ & _ & _ & _ & _ & _ & _ & _ & _ & _
            & Hr & _ & _ & Hpath & _)
  end.
  split; [exact Hrun|]. injection Href as <-. split; [exact Hr|exact Hpath].
Defined.

End further_witnesses.
